(** * Verification of scripts/validate_docs_examples.py

    A shallow embedding of the documentation-examples validation pipeline
    of the WFL repository: the staleness decider [should_validate], the
    tool adapters [validate_with_cli] and [execute_wfl_file], the layer
    executor [validate_example], the batch orchestrator
    [validate_all_examples], [update_cache], [generate_report] and [main].

    Modelling conventions.
    - Python exceptions that escape a function are the constructors of
      [PyExn]; a computation that may raise returns [res A].
    - The effects of [validate_example] (calls to the external tool) are
      recorded in a trace of [Call]s, threaded through the small monad [M].
    - The outside world (file system, subprocesses, clock, hashing, the
      regular-expression engine and the ISO-8601 parser of the Python
      standard library) is the record [Env]; theorems quantify over it.
    - The platform is not win32, so the toolchain binary is
      ["target/release/wfl"]. *)

From Stdlib Require Import ZArith String Ascii List Bool Permutation.
From stdpp Require Import base gmap strings list.
Import ListNotations.

Open Scope Z_scope.

(* ------------------------------------------------------------------ *)
(** ** Python-level helpers *)

Inductive PyExn :=
| UnboundLocalError
| TypeError
| FileNotFoundError
| ValueError
| OSError (name : string).   (* another [OSError] of [open()], by class name,
                                e.g. IsADirectoryError or PermissionError *)

Inductive res (A : Type) :=
| Ok (a : A)
| Raise (e : PyExn).
Arguments Ok {A} a.
Arguments Raise {A} e.

Definition nl : string := String (ascii_of_nat 10) EmptyString.

(** The characters below 256 that [str.isspace()] accepts: tab to
    carriage return, the separators 0x1c to 0x1f, space, NEL and NBSP.
    A string is a sequence of such code points. *)
Definition is_py_space (c : ascii) : bool :=
  let n := nat_of_ascii c in
  ((9 <=? n)%nat && (n <=? 13)%nat || (28 <=? n)%nat && (n <=? 32)%nat
   || Nat.eqb n 133 || Nat.eqb n 160)%bool.

Fixpoint drop_space (l : list ascii) : list ascii :=
  match l with
  | c :: l' => if is_py_space c then drop_space l' else l
  | [] => []
  end.

(** [str.strip()] *)
Definition py_strip (s : string) : string :=
  string_of_list_ascii
    (List.rev (drop_space (List.rev (drop_space (list_ascii_of_string s))))).

(** [a or b] on strings: the empty string is falsy. *)
Definition py_or (a b : string) : string :=
  if String.eqb a "" then b else a.

(** [s[:n]] *)
Definition py_prefix (n : nat) (s : string) : string := substring 0 n s.

Fixpoint digits_go (fuel : nat) (n : N) (acc : string) : string :=
  match fuel with
  | O => acc
  | S f =>
      let d := N.modulo n 10 in
      let acc' := String (ascii_of_N (48 + d)) acc in
      if (N.ltb n 10)%N then acc' else digits_go f (N.div n 10) acc'
  end.

(** [str(n)] for a Python int. *)
Definition z_to_string (z : Z) : string :=
  let body := digits_go (S (N.size_nat (Z.abs_N z))) (Z.abs_N z) EmptyString in
  if z <? 0 then String "-" body else body.

Fixpoint list_mem (x : Z) (l : list Z) : bool :=
  match l with
  | [] => false
  | y :: l' => (x =? y) || list_mem x l'
  end.

(* ------------------------------------------------------------------ *)
(** ** Data model *)

(** [class ValidationLayer(Enum)] *)
Inductive ValidationLayer := PARSE | ANALYZE | TYPECHECK | LINT | EXECUTE.

Definition layer_value (l : ValidationLayer) : Z :=
  match l with PARSE => 1 | ANALYZE => 2 | TYPECHECK => 3 | LINT => 4 | EXECUTE => 5 end.

Definition layer_name (l : ValidationLayer) : string :=
  match l with
  | PARSE => "parse" | ANALYZE => "analyze" | TYPECHECK => "typecheck"
  | LINT => "lint" | EXECUTE => "execute"
  end.

(** [class ValidationResult] *)
Record ValidationResult := mkValidationResult {
  file_path : string;
  success : bool;
  layer : ValidationLayer;
  error : option string;
  warnings : list string;
  execution_time_ms : Z;
  layers_passed : list Z
}.

(** [ValidationResult(file_path, success, layer)] *)
Definition new_result (fp : string) (ok : bool) (l : ValidationLayer) : ValidationResult :=
  mkValidationResult fp ok l None [] 0 [].

Definition set_error (r : ValidationResult) (e : option string) : ValidationResult :=
  mkValidationResult (file_path r) (success r) (layer r) e (warnings r)
    (execution_time_ms r) (layers_passed r).

Definition set_time (r : ValidationResult) (t : Z) : ValidationResult :=
  mkValidationResult (file_path r) (success r) (layer r) (error r) (warnings r)
    t (layers_passed r).

Definition set_layers (r : ValidationResult) (l : list Z) : ValidationResult :=
  mkValidationResult (file_path r) (success r) (layer r) (error r) (warnings r)
    (execution_time_ms r) l.

(** A manifest entry is a JSON object; each key may be absent, and the
    code reads every key with [.get] and a default. *)
Record ManifestEntry := mkManifestEntry {
  validate_layers : option (list Z);
  type : option string;
  expected_failure_layer : option Z;
  expected_error_pattern : option string;
  timeout_seconds : option Z;
  expected_exit_code : option Z;
  skip_execution : option bool
}.

(** A cache entry as written by [update_cache]; read back with [.get]. *)
Record CacheEntry := mkCacheEntry {
  content_hash : option string;
  last_validated : option string;
  validation_result : option string;
  validation_time_ms : option Z;
  ce_layers_passed : option (list Z)
}.

(** The cache JSON object: ["files"], ["wfl_version"], ["last_full_validation"]. *)
Record Cache := mkCache {
  files : option (gmap string CacheEntry);
  wfl_version : option string;
  last_full_validation : option string
}.

Definition empty_cache : Cache := mkCache None None None.

(** What [datetime.fromisoformat] returns: an instant in microseconds
    and whether it carries a UTC offset (aware) or not (naive). *)
Record DateTime := mkDateTime { dt_us : Z; dt_aware : bool }.

(** Outcome of [subprocess.run]. *)
Inductive ProcOutcome :=
| Completed (returncode : Z) (stdout stderr : string)
| TimeoutExpired
| OtherError (msg : string).

(** The world the script runs in. *)
Record Env := mkEnv {
  fs : string -> option (list Byte.byte);      (* [open(p, 'rb').read()] *)
  path_exists : string -> bool;                 (* [Path(p).exists()] *)
  open_error : string -> PyExn;                 (* what [open(p)] raises on an
                                                   existing path it cannot read *)
  write_error : string -> option PyExn;         (* what [open(p, 'w')] raises *)
  utf8_ok : list Byte.byte -> bool;
  read_error : string -> string;
  binary_exists : bool;
  run_proc : list string -> Z -> ProcOutcome;
  sha256_hex : list Byte.byte -> string;
  fromisoformat : string -> option DateTime;
  re_search_i : string -> string -> option bool;
  now_us : Z;
  now_iso : string;
  elapsed_ms : string -> Z
}.

(** The JSON report object. *)
Record Failure := mkFailure {
  f_file : string; f_layer : Z; f_layer_name : string; f_error : option string
}.

Record Report := mkReport {
  validation_timestamp : string;
  report_wfl_version : string;
  total_examples : Z;
  validated : Z;
  passed_count : Z;
  failed_count : Z;
  failures : list Failure
}.

(** A file written by [main]. *)
Inductive Write :=
| WriteCache (path : string) (c : Cache)
| WriteReport (path : string) (r : Report).

(* ------------------------------------------------------------------ *)
(** ** The effect monad of [validate_example]: a trace of tool calls
    and Python exceptions. *)

(** Observable effects: calls to the external tool and files written. *)
Inductive Call :=
| CliCall (command : string)
| ExecCall
| FileWrite (w : Write).

Definition M (A : Type) := list Call -> res A * list Call.

Definition ret {A} (a : A) : M A := fun tr => (Ok a, tr).
Definition raise {A} (e : PyExn) : M A := fun tr => (Raise e, tr).
Definition emit (c : Call) : M unit := fun tr => (Ok tt, tr ++ [c]).
Definition bind {A B} (m : M A) (k : A -> M B) : M B :=
  fun tr => match m tr with
            | (Ok a, tr') => k a tr'
            | (Raise e, tr') => (Raise e, tr')
            end.

Notation "x <- m ;; k" := (bind m (fun x => k))
  (at level 100, m at next level, right associativity).

Definition run {A} (m : M A) : res A * list Call := m [].

(* ------------------------------------------------------------------ *)
(** ** Tool invocation adapters *)

Definition wfl_binary : string := "target/release/wfl".

(** [validate_with_cli(file_path, command)]: what the call returns ... *)
Definition cli_outcome (env : Env) (fp command : string) : bool * option string :=
  if negb (binary_exists env) then
    (false, Some ("WFL binary not found at " ++ wfl_binary
                  ++ ". Run 'cargo build --release' first.")%string)
  else
    match run_proc env [wfl_binary; ("--" ++ command)%string; fp] 30 with
    | Completed rc out err =>
        if rc =? 0 then (true, None)
        else (false, Some (py_strip (py_or err out)))
    | TimeoutExpired =>
        (false, Some ("Timeout running " ++ command ++ " on " ++ fp)%string)
    | OtherError msg =>
        (false, Some ("Error running " ++ command ++ ": " ++ msg)%string)
    end.

(** ... and the call itself, which is traced. *)
Definition validate_with_cli (env : Env) (fp command : string)
  : M (bool * option string) :=
  _ <- emit (CliCall command) ;; ret (cli_outcome env fp command).

(** [execute_wfl_file(file_path, timeout_seconds)]: (exit_code, stdout, stderr). *)
Definition exec_outcome (env : Env) (fp : string) (timeout : Z) : Z * string * string :=
  if negb (binary_exists env) then
    (-1, "", ("WFL binary not found at " ++ wfl_binary)%string)
  else
    match run_proc env [wfl_binary; fp] timeout with
    | Completed rc out err => (rc, out, err)
    | TimeoutExpired =>
        (-1, "", ("Execution timeout (" ++ z_to_string timeout ++ "s)")%string)
    | OtherError msg => (-1, "", ("Execution error: " ++ msg)%string)
    end.

Definition execute_wfl_file (env : Env) (fp : string) (timeout : Z)
  : M (Z * string * string) :=
  _ <- emit ExecCall ;; ret (exec_outcome env fp timeout).

(** [validate_expected_error(error_message, expected_pattern)]:
    [re.search(expected_pattern, error_message, re.IGNORECASE) is not None],
    and [False] when the pattern does not compile ([re.error]).
    [re_search_i env pat msg] is that search: [None] for [re.error]. *)
Definition validate_expected_error (env : Env) (error_message expected_pattern : string)
  : bool :=
  match re_search_i env expected_pattern error_message with
  | Some b => b
  | None => false
  end.

(* ------------------------------------------------------------------ *)
(** ** The layer executor [validate_example] *)

(** Control flow of one layer block: either a [return result] or a fall
    through with the local [result_layers] ([None] while it is unbound). *)
Inductive Flow :=
| Return (r : ValidationResult)
| Continue (result_layers : option (list Z)).

(** [result.layers_passed = result_layers] *)
Definition assign_layers (r : ValidationResult) (rl : option (list Z)) : M ValidationResult :=
  match rl with
  | Some l => ret (set_layers r l)
  | None => raise UnboundLocalError
  end.

(** [result_layers.append(x)] *)
Definition append_layer (rl : option (list Z)) (x : Z) : M (option (list Z)) :=
  match rl with
  | Some l => ret (Some (l ++ [x]))
  | None => raise UnboundLocalError
  end.

Definition is_error_example (example_type : string) : bool :=
  String.eqb example_type "error_example".

(** [manifest_entry.get('expected_failure_layer') == n] *)
Definition efl_is (e : ManifestEntry) (n : Z) : bool :=
  match expected_failure_layer e with Some k => k =? n | None => false end.

Definition entry_layers (e : ManifestEntry) : list Z :=
  default [1; 2; 3; 4; 5] (validate_layers e).

Definition entry_type (e : ManifestEntry) : string :=
  default "executable" (type e).

Definition entry_pattern (e : ManifestEntry) : string :=
  default "" (expected_error_pattern e).

Section Executor.
Variables (env : Env) (fp : string) (e : ManifestEntry).

Let t := elapsed_ms env fp.
Let layers := entry_layers e.
Let ety := entry_type e.

(** Layer 1: Parse *)
Definition layer_parse : M Flow :=
  if list_mem 1 layers then
    r <- validate_with_cli env fp "parse" ;;
    let (ok, err) := r in
    if ok then ret (Continue (Some [1]))
    else if is_error_example ety && efl_is e 1
            && validate_expected_error env (default "" err) (entry_pattern e)
    then ret (Return (set_time (new_result fp true PARSE) t))
    else ret (Return (set_time (set_error (new_result fp false PARSE) err) t))
  else ret (Continue None).

(** Layer 2: Semantic Analysis *)
Definition layer_analyze (rl : option (list Z)) : M Flow :=
  if list_mem 2 layers then
    r <- validate_with_cli env fp "analyze" ;;
    let (ok, err) := r in
    if ok then
      rl' <- append_layer rl 2 ;; ret (Continue rl')
    else if is_error_example ety && efl_is e 2
            && validate_expected_error env (default "" err) (entry_pattern e)
    then
      res <- assign_layers (new_result fp true ANALYZE) rl ;;
      ret (Return (set_time res t))
    else
      res <- assign_layers (set_error (new_result fp false ANALYZE) err) rl ;;
      ret (Return (set_time res t))
  else ret (Continue rl).

(** Layer 3: Type Checking (no tool call: folded into analyze) *)
Definition layer_typecheck (rl : option (list Z)) : M Flow :=
  if list_mem 3 layers then
    rl' <- append_layer rl 3 ;; ret (Continue rl')
  else ret (Continue rl).

(** Layer 4: Linting (the outcome of the call is ignored) *)
Definition layer_lint (rl : option (list Z)) : M Flow :=
  if list_mem 4 layers then
    r <- validate_with_cli env fp "lint" ;;
    let (ok, _) := r in
    if negb ok then
      rl' <- append_layer rl 4 ;; ret (Continue rl')
    else
      rl' <- append_layer rl 4 ;; ret (Continue rl')
  else ret (Continue rl).

Definition exit_error (exit_code expected stderr : string) : string :=
  ("Exit code " ++ exit_code ++ ", expected " ++ expected
   ++ (if String.eqb stderr "" then ""
       else nl ++ "Stderr: " ++ py_prefix 200 stderr))%string.

(** Layer 5: Execution *)
Definition layer_execute (rl : option (list Z)) : M Flow :=
  if list_mem 5 layers && negb (default false (skip_execution e)) then
    let timeout := default 30 (timeout_seconds e) in
    r <- execute_wfl_file env fp timeout ;;
    let '(exit_code, stdout, stderr) := r in
    let expected := default 0 (expected_exit_code e) in
    if negb (exit_code =? expected) then
      if is_error_example ety
         && validate_expected_error env (py_or stderr stdout) (entry_pattern e)
      then
        res <- assign_layers (new_result fp true EXECUTE) rl ;;
        ret (Return (set_time res t))
      else
        let r0 := set_error (new_result fp false EXECUTE)
                    (Some (exit_error (z_to_string exit_code)
                             (z_to_string expected) stderr)) in
        res <- assign_layers r0 rl ;;
        ret (Return (set_time res t))
    else
      rl' <- append_layer rl 5 ;; ret (Continue rl')
  else ret (Continue rl).

(** Sequencing of the blocks: a [Return] ends the function. *)
Definition then_layer (m : M Flow) (k : option (list Z) -> M Flow) : M Flow :=
  f <- m ;;
  match f with
  | Return r => ret (Return r)
  | Continue rl => k rl
  end.

Definition validate_layers_body : M ValidationResult :=
  f <- then_layer (then_layer (then_layer (then_layer layer_parse layer_analyze)
                    layer_typecheck) layer_lint) layer_execute ;;
  match f with
  | Return r => ret r
  | Continue rl =>
      (* All layers passed! *)
      res <- assign_layers (new_result fp true EXECUTE) rl ;;
      ret (set_time res t)
  end.

(** [validate_example(file_path, manifest_entry)] *)
Definition validate_example : M ValidationResult :=
  match fs env fp with
  | Some bytes =>
      if utf8_ok env bytes then validate_layers_body
      else ret (set_error (new_result fp false PARSE)
                  (Some ("Failed to read file: " ++ read_error env fp)%string))
  | None =>
      ret (set_error (new_result fp false PARSE)
             (Some ("Failed to read file: " ++ read_error env fp)%string))
  end.

End Executor.

(* ------------------------------------------------------------------ *)
(** ** Content fingerprint and staleness decider *)

Definition lift {A} (r : res A) : M A :=
  match r with Ok a => ret a | Raise e => raise e end.

(** What [open(file_path, 'rb')] raises when it fails. *)
Definition open_exn (env : Env) (fp : string) : PyExn :=
  if path_exists env fp then open_error env fp else FileNotFoundError.

(** [compute_file_hash(file_path)]: a failing [open] raises. *)
Definition compute_file_hash (env : Env) (fp : string) : res string :=
  match fs env fp with
  | Some bytes => Ok ("sha256:" ++ sha256_hex env bytes)%string
  | None => Raise (open_exn env fp)
  end.

Fixpoint split_slash_go (cur : string) (s : string) : list string :=
  match s with
  | EmptyString => [cur]
  | String c s' =>
      if Ascii.eqb c "/" then cur :: split_slash_go EmptyString s'
      else split_slash_go (cur ++ String c EmptyString)%string s'
  end.

Definition split_slash (s : string) : list string := split_slash_go EmptyString s.

Fixpoint join_slash (l : list string) : string :=
  match l with
  | [] => EmptyString
  | [x] => x
  | x :: l' => (x ++ "/" ++ join_slash l')%string
  end.

(** Pure POSIX paths as [pathlib] parses them: an anchor (["/"], ["//"]
    for exactly two leading slashes, or none) and the list of components,
    where empty components and ["."] are dropped. *)
Definition pl_anchor (s : string) : string :=
  if String.prefix "///" s then "/"
  else if String.prefix "//" s then "//"
  else if String.prefix "/" s then "/"
  else "".

Definition pl_parts (s : string) : list string :=
  List.filter (fun c => negb (String.eqb c "") && negb (String.eqb c ".")) (split_slash s).

(** [str()] of the path with this anchor and these components. *)
Definition pl_str (anchor : string) (parts : list string) : string :=
  match parts with
  | [] => if String.eqb anchor "" then "." else anchor
  | _ => (anchor ++ join_slash parts)%string
  end.

(** [str(Path(p))] *)
Definition pl_norm (p : string) : string := pl_str (pl_anchor p) (pl_parts p).

(** [file_path.relative_to(file_path.parent.parent.parent).as_posix()]:
    the last three components (fewer when the path has fewer), without
    the anchor. *)
Definition rel_path3 (fp : string) : string :=
  let parts := pl_parts fp in
  pl_str "" (skipn (length parts - 3) parts).

(** [str.replace('Z', '+00:00')] *)
Fixpoint replace_Z (s : string) : string :=
  match s with
  | EmptyString => EmptyString
  | String c s' =>
      if Ascii.eqb c "Z" then ("+00:00" ++ replace_Z s')%string
      else String c (replace_Z s')
  end.

(** The manifest is a JSON object, i.e. keys in insertion order. *)
Definition Manifest := list (string * ManifestEntry).

Definition in_manifest (k : string) (m : Manifest) : bool :=
  existsb (fun kv => String.eqb (fst kv) k) m.

Definition manifest_lookup (k : string) (m : Manifest) : option ManifestEntry :=
  option_map snd (List.find (fun kv => String.eqb (fst kv) k) m).

Definition cache_files (cache : Cache) : gmap string CacheEntry :=
  default ∅ (files cache).

Definition us_per_day : Z := 86400000000.

(** [(datetime.now(timezone.utc) - last_date).days]: [timedelta.days] is
    the floor of the difference in days; subtracting a naive datetime from
    an aware one raises [TypeError]. *)
Definition age_days (env : Env) (d : DateTime) : res Z :=
  if dt_aware d then Ok ((now_us env - dt_us d) / us_per_day)
  else Raise TypeError.

(** [should_validate(file_path, manifest, cache)] *)
Definition should_validate (env : Env) (fp : string) (manifest : Manifest) (cache : Cache)
  : res bool :=
  let rel_path := rel_path3 fp in
  if negb (in_manifest rel_path manifest) then Ok true
  else
    match compute_file_hash env fp with
    | Raise e => Raise e
    | Ok current_hash =>
        match cache_files cache !! rel_path with
        | None => Ok true
        | Some cached_entry =>
            let cached_hash := default "" (content_hash cached_entry) in
            if negb (String.eqb current_hash cached_hash) then Ok true
            else
              let lv := default "" (last_validated cached_entry) in
              if String.eqb lv "" then Ok false
              else
                match fromisoformat env (replace_Z lv) with
                | None => Ok true                     (* except ValueError *)
                | Some last_date =>
                    match age_days env last_date with
                    | Raise e => Raise e
                    | Ok days => if days >? 7 then Ok true else Ok false
                    end
                end
        end
    end.

(* ------------------------------------------------------------------ *)
(** ** Batch orchestrator [validate_all_examples] *)

(** [str(Path(base) / k)]: an anchored [k] replaces [base]. *)
Definition path_join (base k : string) : string :=
  if String.eqb (pl_anchor k) "" then pl_str (pl_anchor base) (pl_parts base ++ pl_parts k)
  else pl_str (pl_anchor k) (pl_parts k).

(** The rest of [l] after the prefix [pre], if [pre] is one. *)
Fixpoint parts_prefix (pre l : list string) : option (list string) :=
  match pre, l with
  | [], _ => Some l
  | x :: pre', y :: l' => if String.eqb x y then parts_prefix pre' l' else None
  | _ :: _, [] => None
  end.

(** [Path(p).relative_to(base).as_posix()]: same anchor, and the
    components of [base] begin those of [p]. *)
Definition relative_to (p base : string) : res string :=
  if String.eqb (pl_anchor p) (pl_anchor base) then
    match parts_prefix (pl_parts base) (pl_parts p) with
    | Some rest => Ok (pl_str "" rest)
    | None => Raise ValueError
    end
  else Raise ValueError.

Definition category_excludes (category : option string) (rel_path : string) : bool :=
  match category with
  | Some c => negb (String.eqb c "") && negb (String.prefix (c ++ "/") rel_path)
  | None => false
  end.

Section Orchestrator.
Variables (env : Env) (base : string) (manifest : Manifest) (cache : Cache)
          (category : option string) (force : bool).

(** The selection loop building [files_to_validate]. *)
Fixpoint select_files (ms : Manifest) : res (list (string * ManifestEntry)) :=
  match ms with
  | [] => Ok []
  | (rel_path, manifest_entry) :: rest =>
      let file_path := path_join base rel_path in
      if negb (path_exists env file_path) then select_files rest   (* file not found *)
      else if category_excludes category rel_path then select_files rest
      else if negb force then
        match should_validate env file_path manifest cache with
        | Raise e => Raise e
        | Ok false => select_files rest                (* skipping, cached *)
        | Ok true =>
            match select_files rest with
            | Ok l => Ok ((file_path, manifest_entry) :: l)
            | Raise e => Raise e
            end
        end
      else
        match select_files rest with
        | Ok l => Ok ((file_path, manifest_entry) :: l)
        | Raise e => Raise e
        end
  end.

(** The validation loop: each result goes to [passed] or [failed]. *)
Fixpoint validate_each (todo : list (string * ManifestEntry))
    (passed failed : list ValidationResult) : M (list ValidationResult * list ValidationResult) :=
  match todo with
  | [] => ret (passed, failed)
  | (file_path, manifest_entry) :: rest =>
      result <- validate_example env file_path manifest_entry ;;
      if success result then validate_each rest (passed ++ [result]) failed
      else validate_each rest passed (failed ++ [result])
  end.

Definition validate_all_examples (single_file : option string)
  : M (list ValidationResult * list ValidationResult) :=
  match single_file with
  | Some sf =>
      rel_path <- lift (relative_to sf base) ;;
      match manifest_lookup rel_path manifest with
      | None => ret ([], [])                           (* not found in manifest *)
      | Some manifest_entry =>
          result <- validate_example env sf manifest_entry ;;
          if success result then ret ([result], []) else ret ([], [result])
      end
  | None =>
      files_to_validate <- lift (select_files manifest) ;;
      validate_each files_to_validate [] []
  end.

End Orchestrator.

(* ------------------------------------------------------------------ *)
(** ** Cache updater, report generator and [main] *)

(** The cache entry [update_cache] writes for one result. *)
Definition fresh_entry (env : Env) (hash : string) (result : ValidationResult) : CacheEntry :=
  mkCacheEntry (Some hash) (Some (now_iso env))
    (Some (if success result then "pass" else "fail")%string)
    (Some (execution_time_ms result)) (Some (layers_passed result)).

Fixpoint update_files (env : Env) (base : string) (results : list ValidationResult)
    (cf : gmap string CacheEntry) : res (gmap string CacheEntry) :=
  match results with
  | [] => Ok cf
  | result :: rest =>
      match relative_to (file_path result) base with
      | Raise e => Raise e
      | Ok rel_path =>
          match compute_file_hash env (file_path result) with
          | Raise e => Raise e
          | Ok h => update_files env base rest (<[rel_path := fresh_entry env h result]> cf)
          end
      end
  end.

(** [update_cache(cache, results, examples_dir)]; [cache.setdefault('files', {})]. *)
Definition update_cache (env : Env) (cache : Cache) (results : list ValidationResult)
    (base : string) : res Cache :=
  match update_files env base results (cache_files cache) with
  | Ok cf => Ok (mkCache (Some cf) (wfl_version cache) (last_full_validation cache))
  | Raise e => Raise e
  end.

(** [get_wfl_version()]; every exception is caught. *)
Definition get_wfl_version (env : Env) : string :=
  if binary_exists env then
    match run_proc env [wfl_binary; "--version"] 5 with
    | Completed rc out _ => if rc =? 0 then py_strip out else "unknown"
    | _ => "unknown"
    end
  else "unknown".

(** [generate_report(passed, failed, output_file)]: the JSON object dumped. *)
Definition generate_report (env : Env) (passed failed : list ValidationResult) : Report :=
  mkReport (now_iso env) (get_wfl_version env)
    (Z.of_nat (length passed) + Z.of_nat (length failed))
    (Z.of_nat (length passed) + Z.of_nat (length failed))
    (Z.of_nat (length passed)) (Z.of_nat (length failed))
    (map (fun r => mkFailure (file_path r) (layer_value (layer r))
                     (layer_name (layer r)) (error r)) failed).

(** Command-line arguments. *)
Record Args := mkArgs {
  arg_category : option string;
  arg_file : option string;        (* [str(args.file)], as pathlib prints it *)
  arg_ci : bool;
  arg_force : bool;
  arg_update_manifest : bool;
  arg_report : bool;
  arg_verbose : bool
}.

(** The two JSON files read by [main]: [None] when the file does not exist. *)
Record Disk := mkDisk {
  manifest_json : option Manifest;
  cache_json : option Cache
}.

Section Main.
Variables (env : Env) (disk : Disk) (repo_root : string).

Definition examples_parent : string := path_join repo_root "TestPrograms".
Definition examples_dir : string := path_join examples_parent "docs_examples".
Definition cache_file : string :=
  path_join (path_join examples_dir "_meta") "validation_cache.json".
Definition report_file : string := path_join repo_root "validation_report.json".

(** [manifest = {k: v for k, v in manifest.items() if not k.startswith('$')}] *)
Definition drop_schema (m : Manifest) : Manifest :=
  List.filter (fun kv => negb (String.prefix "$" (fst kv))) m.

(** [cache = json.load(f)] when the cache file exists and [--force] is off. *)
Definition loaded_cache (force : bool) : Cache :=
  match cache_json disk with
  | Some c => if force then empty_cache else c
  | None => empty_cache
  end.

(** [with open(path, 'w') as f: json.dump(...)]: the write happens when
    [open] succeeds. *)
Definition write_file (path : string) (w : Write) : M unit :=
  match write_error env path with
  | Some e => raise e
  | None => emit (FileWrite w)
  end.

(** [main()]: returns the exit code; the files written are in the trace. *)
Definition main (args : Args) : M Z :=
  match manifest_json disk with
  | None => ret 1                                      (* sys.exit(1) *)
  | Some raw =>
      let manifest := drop_schema raw in
      let cache := loaded_cache (arg_force args) in
      r <- validate_all_examples env examples_parent manifest cache
             (arg_category args) (arg_force args) (arg_file args) ;;
      let (passed, failed) := r in
      _ <- (if negb (arg_ci args) then
              c <- lift (update_cache env cache (passed ++ failed) examples_parent) ;;
              let c' := mkCache (files c) (Some (get_wfl_version env)) (Some (now_iso env)) in
              write_file cache_file (WriteCache cache_file c')
            else ret tt) ;;
      _ <- (if arg_report args
            then write_file report_file (WriteReport report_file (generate_report env passed failed))
            else ret tt) ;;
      ret (match failed with [] => 0 | _ => 1 end)
  end.

End Main.

(* ------------------------------------------------------------------ *)
(** ** A concrete world for examples *)

Definition lower_ascii (c : ascii) : ascii :=
  let n := nat_of_ascii c in
  if (Nat.leb 65 n && Nat.leb n 90)%bool then ascii_of_nat (n + 32) else c.

Fixpoint lower (s : string) : string :=
  match s with
  | EmptyString => EmptyString
  | String c s' => String (lower_ascii c) (lower s')
  end.

Fixpoint contains (pat s : string) : bool :=
  String.prefix pat s ||
  match s with
  | EmptyString => false
  | String _ s' => contains pat s'
  end.

(** [re.search(p, s, re.IGNORECASE)] for a pattern [p] without regular
    expression metacharacters: a case-insensitive substring search. *)
Definition literal_search_i (p s : string) : option bool :=
  Some (contains (lower p) (lower s)).

(** Test ISO parser: day numbers since 1970-01-01 of two timestamps
    carrying a UTC offset. *)
Definition test_iso (s : string) : option DateTime :=
  if String.eqb s "2026-10-17T00:00:00+00:00" then Some (mkDateTime (20743 * us_per_day) true)
  else if String.eqb s "2026-10-10T12:00:00+00:00"
  then Some (mkDateTime (20736 * us_per_day + us_per_day / 2) true)
  else if String.eqb s "2026-10-17T00:00:00"
  then Some (mkDateTime (20743 * us_per_day) false)
  else None.

(** Every file exists and holds the byte 'a', every write succeeds; now
    is 2026-10-18T00:00:00Z. *)
Definition test_env (binary : bool) (proc : list string -> Z -> ProcOutcome) : Env :=
  mkEnv (fun _ => Some [Byte.x61]) (fun _ => true) (fun _ => OSError "PermissionError")
    (fun _ => None) (fun _ => true) (fun _ => "unreadable")
    binary proc (fun _ => "abc") test_iso literal_search_i
    (20744 * us_per_day) "2026-10-18T00:00:00+00:00" (fun _ => 12).

(** A toolchain answering [parse], [analyze], [lint] and execution with
    the given outcomes. *)
Definition tool (parse analyze lint exec : ProcOutcome) : list string -> Z -> ProcOutcome :=
  fun args _ =>
    match args with
    | [_; flag; _] =>
        if String.eqb flag "--parse" then parse
        else if String.eqb flag "--analyze" then analyze
        else if String.eqb flag "--lint" then lint
        else OtherError "unknown flag"
    | [_; _] => exec
    | _ => OtherError "unknown command"
    end.

Definition ok_proc : ProcOutcome := Completed 0 "ok" "".

Definition entry (layers : option (list Z)) (ty : option string) (efl : option Z)
    (pat : option string) : ManifestEntry :=
  mkManifestEntry layers ty efl pat None None None.

Definition neg_parse_entry : ManifestEntry :=
  entry None (Some "error_example") (Some 1) (Some "unexpected token").

(** Inputs of the executor scenarios below. *)
Definition unexpected_token_env : Env :=
  test_env true (tool (Completed 1 "" "Error: Unexpected Token at 3:4") ok_proc ok_proc ok_proc).

Definition file_not_found_env : Env :=
  test_env true (tool (Completed 1 "" "file not found") ok_proc ok_proc ok_proc).

(** An error example expected to fail at the lint layer. *)
Definition lint_neg_entry : ManifestEntry :=
  entry (Some [1; 4; 5]) (Some "error_example") (Some 4) (Some "style").

(** Lint fails with a "style" diagnostic; execution exits with 3. *)
Definition lint_fail_env : Env :=
  test_env true (tool ok_proc ok_proc (Completed 1 "" "style: unused variable")
                  (Completed 3 "" "boom")).




(** Inputs of the staleness scenarios below. *)
Definition sv_key : string := "docs_examples/basic/a.wfl".
Definition sv_fp : string := path_join "/r/TestPrograms" sv_key.
Definition sv_manifest : Manifest := [(sv_key, entry None None None None)].

Definition cache_with (ce : CacheEntry) : Cache :=
  mkCache (Some {[ sv_key := ce ]}) None None.

(** Matching fingerprint, no timestamp. *)
Definition ce_no_timestamp : CacheEntry :=
  mkCacheEntry (Some "sha256:abc") None (Some "pass") (Some 12) (Some [1; 2; 3; 4; 5]).

(** Matching fingerprint, validated seven and a half days ago. *)
Definition ce_week_and_half : CacheEntry :=
  mkCacheEntry (Some "sha256:abc") (Some "2026-10-10T12:00:00+00:00") (Some "pass")
    (Some 12) (Some [1; 2; 3; 4; 5]).

(** Matching fingerprint, validated yesterday, with no UTC offset. *)
Definition ce_naive : CacheEntry :=
  mkCacheEntry (Some "sha256:abc") (Some "2026-10-17T00:00:00") (Some "pass")
    (Some 12) (Some [1; 2; 3; 4; 5]).

(** Matching fingerprint, validated yesterday, and failed. *)
Definition ce_fresh_fail : CacheEntry :=
  mkCacheEntry (Some "sha256:abc") (Some "2026-10-17T00:00:00+00:00") (Some "fail")
    (Some 12) (Some [1]).

Definition sv_env : Env := test_env true (tool ok_proc ok_proc ok_proc ok_proc).

(** Inputs of the batch scenarios below. *)
Definition default_entry : ManifestEntry := entry None None None None.

Definition two_file_disk : Disk :=
  mkDisk (Some [("$schema", default_entry);
                ("docs_examples/basic/a.wfl", default_entry);
                ("docs_examples/basic/b.wfl", default_entry)]) None.

Definition plain_args : Args := mkArgs None None false false false false false.
Definition ci_args : Args := mkArgs None None true false false true false.



(** A two-file batch in which [a.wfl] has a fresh cache entry (skipped)
    and [b.wfl] is validated. *)
Definition two_manifest : Manifest :=
  [(sv_key, default_entry); ("docs_examples/basic/b.wfl"%string, default_entry)].
Definition b_fp : string := path_join "/r/TestPrograms" "docs_examples/basic/b.wfl".

(** The result of a file that passes all five layers in [sv_env]. *)
Definition full_pass (fp : string) : ValidationResult :=
  mkValidationResult fp true EXECUTE None [] 12 [1; 2; 3; 4; 5].

Definition cached_disk : Disk :=
  mkDisk (manifest_json two_file_disk) (Some (cache_with ce_fresh_fail)).

(** The tool calls of one file validated through all five layers. *)
Definition run_calls : list Call :=
  [CliCall "parse"; CliCall "analyze"; CliCall "lint"; ExecCall].

(** The cache the non-CI run over [cached_disk] writes. *)
Definition cache_written : Cache :=
  mkCache (Some (<["docs_examples/basic/b.wfl" := fresh_entry sv_env "sha256:abc" (full_pass b_fp)]>
                   (cache_files (cache_with ce_fresh_fail))))
    (Some (get_wfl_version sv_env)) (Some (now_iso sv_env)).

(* ------------------------------------------------------------------ *)
(** ** Observations used to state the properties of the executor *)

(** The files a [--force] run selects: every manifest entry whose path
    exists ([Path.exists()], a file or a directory) and which the category
    filter keeps. *)
Definition forced_selection (env : Env) (base : string) (category : option string)
    (ms : Manifest) : list (string * ManifestEntry) :=
  map (fun kv => (path_join base kv.1, kv.2))
    (List.filter (fun kv => path_exists env (path_join base kv.1)
                            && negb (category_excludes category kv.1)) ms).

(** The same world, except that the lint process of [fp] ends with [o]. *)
Definition with_lint (env : Env) (fp : string) (o : ProcOutcome) : Env :=
  mkEnv (fs env) (path_exists env) (open_error env) (write_error env)
    (utf8_ok env) (read_error env) (binary_exists env)
    (fun args t => if bool_decide (args = [wfl_binary; "--lint"; fp]) then o
                   else run_proc env args t)
    (sha256_hex env) (fromisoformat env) (re_search_i env) (now_us env) (now_iso env)
    (elapsed_ms env).

(** The files [validate_all_examples] hands to [validate_example]. *)
Definition executed_files (env : Env) (base : string) (manifest : Manifest) (cache : Cache)
    (category : option string) (force : bool) (single_file : option string)
  : res (list (string * ManifestEntry)) :=
  match single_file with
  | Some sf =>
      match relative_to sf base with
      | Ok rel_path =>
          match manifest_lookup rel_path manifest with
          | Some manifest_entry => Ok [(sf, manifest_entry)]
          | None => Ok []
          end
      | Raise e => Raise e
      end
  | None => select_files env base manifest cache category force manifest
  end.

(** A tool call, as opposed to a file write. *)
Definition is_tool_call (c : Call) : bool :=
  match c with FileWrite _ => false | _ => true end.

(** [tr'] extends [tr] by tool calls only: no file is written. *)
Definition tool_ext (tr tr' : list Call) : Prop :=
  exists ext, tr' = tr ++ ext /\ Forall (fun c => is_tool_call c = true) ext.

(** The tool call made by layer [L] (layer 3 makes none). *)
Definition layer_call (L : Z) : Call :=
  if L =? 1 then CliCall "parse"
  else if L =? 2 then CliCall "analyze"
  else if L =? 4 then CliCall "lint"
  else ExecCall.

Definition layer_command (L : Z) : string :=
  if L =? 1 then "parse" else if L =? 2 then "analyze" else "lint".

(** [Some diag] when the invocation of layer [L] fails with diagnostic
    [diag]; for layer 5, failing means an exit code other than the
    expected one, and the diagnostic is [stderr or stdout]. *)
Definition layer_diag (env : Env) (fp : string) (e : ManifestEntry) (L : Z) : option string :=
  if L =? 5 then
    let '(code, out, err) := exec_outcome env fp (default 30 (timeout_seconds e)) in
    if code =? default 0 (expected_exit_code e) then None else Some (py_or err out)
  else if (L =? 1) || (L =? 2) || (L =? 4) then
    let (ok, err) := cli_outcome env fp (layer_command L) in
    if ok then None else Some (default "" err)
  else None.


(** The last call of a trace: no layer ran after it. *)
Definition final_call (tr : list Call) : option Call := List.last (map Some tr) None.


(** The requested layers below [L], in layer order (1 to 5). *)
Definition layers_upto (e : ManifestEntry) (L : Z) : list Z :=
  List.filter (fun k => (k <? L) && list_mem k (entry_layers e)) [1; 2; 3; 4; 5].

(** The layers a run goes through: the requested ones, without layer 5
    when [skip_execution] is set. *)
Definition layers_run (e : ManifestEntry) : list Z :=
  List.filter (fun k => list_mem k (entry_layers e)
                        && negb ((k =? 5) && default false (skip_execution e)))
    [1; 2; 3; 4; 5].

(** A path component: a string without ['/']. *)
Fixpoint no_slash (s : string) : bool :=
  match s with
  | EmptyString => true
  | String c s' => negb (Ascii.eqb c "/") && no_slash s'
  end.

(** A component of a parsed path: not empty, not ["."], without ['/']. *)
Definition part_ok (c : string) : bool :=
  negb (String.eqb c "") && negb (String.eqb c ".") && no_slash c.

(** The anchors [pl_anchor] returns. *)
Definition is_anchor (a : string) : Prop := a = "" \/ a = "/" \/ a = "//".

(** The files written in a trace, in order. *)
Definition file_writes (tr : list Call) : list Write :=
  flat_map (fun c => match c with FileWrite w => [w] | _ => [] end) tr.


(** More inputs for the examples: a world in which no file exists, an
    entry without layer 5, and further command lines and disks. *)
Definition missing_env : Env :=
  mkEnv (fun _ => None) (fun _ => false) (open_error sv_env) (write_error sv_env)
    (utf8_ok sv_env) (read_error sv_env) (binary_exists sv_env)
    (run_proc sv_env) (sha256_hex sv_env) (fromisoformat sv_env) (re_search_i sv_env)
    (now_us sv_env) (now_iso sv_env) (elapsed_ms sv_env).

Definition no_exec_entry : ManifestEntry := entry (Some [1; 2; 3; 4]) None None None.

Definition report_args : Args := mkArgs None None false false false true false.
Definition force_args : Args := mkArgs None None false true false false false.
Definition file_args : Args := mkArgs None (Some sv_fp) false false false false false.
Definition file_disk : Disk := mkDisk (Some sv_manifest) None.

(** The cache a [--force] run over [cached_disk] writes. *)
Definition forced_cache : Cache :=
  mkCache (Some {[ sv_key := fresh_entry sv_env "sha256:abc" (full_pass sv_fp);
                   "docs_examples/basic/b.wfl" := fresh_entry sv_env "sha256:abc" (full_pass b_fp) ]})
    (Some (get_wfl_version sv_env)) (Some (now_iso sv_env)).

(* ------------------------------------------------------------------ *)
(** ** Proof tools *)

Ltac unfold_executor :=
  unfold validate_example, validate_layers_body, then_layer, layer_parse,
    layer_analyze, layer_typecheck, layer_lint, layer_execute,
    validate_with_cli, execute_wfl_file, assign_layers, append_layer,
    bind, ret, emit, raise in *.

(** Case analysis following evaluation: split on a scrutinee that has no
    [match] of its own, the left operand of a conjunction first. *)
Ltac dest_scrut x :=
  lazymatch x with
  | andb ?a _ => dest_scrut a
  | negb ?a => dest_scrut a
  | _ => destruct x eqn:?
  end.

Ltac head_split :=
  repeat (cbn beta iota delta [andb negb] in *;
    match goal with
    | |- context [match ?x with _ => _ end] =>
        lazymatch x with
        | context [match _ with _ => _ end] => fail
        | _ => dest_scrut x
        end
    end).


Ltac finish_run :=
  intros; simpl in *;
  repeat match goal with
  | H : (_, _) = (_, _) |- _ => injection H as; subst
  | H : Some _ = Some _ |- _ => injection H as; subst
  end;
  simpl in *;
  repeat match goal with H : _ \/ _ |- _ => destruct H as [H|H] end;
  try contradiction; try discriminate; try congruence.

Ltac tool_trace :=
  eexists; split;
  [ rewrite <- ?app_assoc; first [ reflexivity | symmetry; apply app_nil_r ]
  | simpl; repeat constructor ].

Ltac ext_no :=
  eexists; split;
  [ rewrite <- ?app_assoc; first [ reflexivity | symmetry; apply app_nil_r ]
  | simpl; intuition discriminate ].

Ltac use_mem :=
  repeat match goal with
  | H : list_mem ?k ?l = ?b |- context [list_mem ?k ?l] => rewrite H
  | H : default false (skip_execution ?e) = ?b |- context [default false (skip_execution ?e)] =>
      rewrite H
  end.

(* ------------------------------------------------------------------ *)
(** ** General facts about the executor *)


Lemma efl_is_some e n : expected_failure_layer e = Some n -> efl_is e n = true.
Proof. unfold efl_is. intros ->. apply Z.eqb_refl. Qed.


Lemma tool_ext_trans tr1 tr2 tr3 : tool_ext tr1 tr2 -> tool_ext tr2 tr3 -> tool_ext tr1 tr3.
Proof.
  intros [e1 [-> H1]] [e2 [-> H2]]. exists (e1 ++ e2). split.
  - rewrite app_assoc. reflexivity.
  - apply Forall_app. auto.
Qed.

Lemma tool_ext_refl tr : tool_ext tr tr.
Proof. exists []. split; [symmetry; apply app_nil_r | constructor]. Qed.

(** [validate_example] only makes tool calls, and its result is about
    the file it was given. *)
Lemma validate_example_shape env fp e tr x tr' :
  validate_example env fp e tr = (x, tr') ->
  (exists ext, tr' = tr ++ ext /\ Forall (fun c => is_tool_call c = true) ext)
  /\ (forall r, x = Ok r -> file_path r = fp).
Proof.
  unfold_executor. head_split; finish_run.
  all: split; [tool_trace | intros ? Hr; first [discriminate | injection Hr as <-; reflexivity]].
Qed.

(* ------------------------------------------------------------------ *)
(** ** Strings and paths *)

Lemma append_assoc_s (a b c : string) : (a ++ (b ++ c))%string = ((a ++ b) ++ c)%string.
Proof. induction a as [|x a IH]; [reflexivity|]. exact (f_equal (String x) IH). Qed.


Lemma append_cons_s c (a t : string) : (String c a ++ t)%string = String c (a ++ t).
Proof. reflexivity. Qed.

Lemma append_empty_s (a : string) : (a ++ "")%string = a.
Proof. induction a as [|c a IH]; [reflexivity|]. exact (f_equal (String c) IH). Qed.

Lemma split_go_plain cur a t :
  no_slash a = true -> split_slash_go cur (a ++ t) = split_slash_go (cur ++ a) t.
Proof.
  revert cur. induction a as [|c a IH]; intros cur H.
  - rewrite append_empty_s. reflexivity.
  - rewrite append_cons_s. simpl in H. apply andb_prop in H as [Hc Ha].
    simpl. destruct (Ascii.eqb c "/"); [discriminate|].
    rewrite IH by exact Ha. rewrite <- append_assoc_s. reflexivity.
Qed.

Lemma split_go_slash cur t : split_slash_go cur ("/" ++ t) = cur :: split_slash_go "" t.
Proof. reflexivity. Qed.

Lemma split_go_join cur x l :
  Forall (fun s => no_slash s = true) (x :: l) ->
  split_slash_go cur (join_slash (x :: l)) = (cur ++ x)%string :: l.
Proof.
  revert cur x. induction l as [|y l IH]; intros cur x Hall;
    inversion Hall as [|? ? Hx Hrest]; subst.
  - simpl. rewrite <- (append_empty_s x) at 1. rewrite split_go_plain by exact Hx.
    reflexivity.
  - change (join_slash (x :: y :: l)) with (x ++ "/" ++ join_slash (y :: l))%string.
    rewrite split_go_plain by exact Hx. rewrite split_go_slash, IH by exact Hrest.
    reflexivity.
Qed.

Lemma split_join_l l :
  l <> [] -> Forall (fun s => no_slash s = true) l -> split_slash (join_slash l) = l.
Proof.
  destruct l as [|x l]; [contradiction|]. intros _ Hall.
  unfold split_slash. rewrite split_go_join by exact Hall. reflexivity.
Qed.

Lemma no_slash_app a b : no_slash (a ++ b) = no_slash a && no_slash b.
Proof.
  induction a as [|c a IH]; [reflexivity|]. rewrite append_cons_s. simpl.
  rewrite IH. apply andb_assoc.
Qed.

Lemma split_go_no_slash cur s :
  no_slash cur = true -> Forall (fun c => no_slash c = true) (split_slash_go cur s).
Proof.
  revert cur. induction s as [|c s IH]; intros cur Hcur; simpl.
  - constructor; [exact Hcur | constructor].
  - destruct (Ascii.eqb c "/") eqn:Hc.
    + constructor; [exact Hcur | apply IH; reflexivity].
    + apply IH. rewrite no_slash_app, Hcur. simpl. rewrite Hc. reflexivity.
Qed.

Lemma pl_parts_ok s : Forall (fun c => part_ok c = true) (pl_parts s).
Proof.
  unfold pl_parts. pose proof (split_go_no_slash "" s eq_refl) as H.
  fold (split_slash s) in H. rewrite List.Forall_forall in *. intros c Hc.
  apply filter_In in Hc as [Hin Hf]. unfold part_ok. rewrite Hf, (H c Hin). reflexivity.
Qed.

Lemma parts_filter_id ps :
  Forall (fun c => part_ok c = true) ps ->
  List.filter (fun c => negb (String.eqb c "") && negb (String.eqb c ".")) ps = ps.
Proof.
  induction ps as [|c ps IH]; intros Hall; [reflexivity|].
  rewrite Forall_cons in Hall. destruct Hall as [Hc Hps]. simpl.
  unfold part_ok in Hc. apply andb_prop in Hc as [Hc _]. rewrite Hc, IH by exact Hps.
  reflexivity.
Qed.

Lemma part_ok_no_slash ps :
  Forall (fun c => part_ok c = true) ps -> Forall (fun c => no_slash c = true) ps.
Proof.
  intros H. eapply List.Forall_impl; [|exact H]. intros c Hc. unfold part_ok in Hc.
  apply andb_prop in Hc as [_ Hc]. exact Hc.
Qed.

(** The string of a non-empty list of components begins with the first
    character of its first component. *)
Lemma join_slash_head x l :
  part_ok x = true -> exists c t, join_slash (x :: l) = String c t /\ Ascii.eqb c "/" = false.
Proof.
  intros Hx. unfold part_ok in Hx. destruct x as [|c x]; [discriminate|].
  apply andb_prop in Hx as [_ Hx]. simpl in Hx. apply andb_prop in Hx as [Hc _].
  exists c. destruct l as [|y l].
  - exists x. split; [reflexivity|]. destruct (Ascii.eqb c "/"); [discriminate|reflexivity].
  - exists (x ++ "/" ++ join_slash (y :: l))%string. split; [reflexivity|].
    destruct (Ascii.eqb c "/"); [discriminate|reflexivity].
Qed.

Lemma pl_anchor_cases s : is_anchor (pl_anchor s).
Proof.
  unfold is_anchor, pl_anchor.
  destruct (String.prefix "///" s); [auto|]. destruct (String.prefix "//" s); [auto|].
  destruct (String.prefix "/" s); auto.
Qed.

Lemma pl_parts_str a ps :
  is_anchor a -> Forall (fun c => part_ok c = true) ps -> pl_parts (pl_str a ps) = ps.
Proof.
  intros Ha Hps. destruct ps as [|x l].
  - destruct Ha as [->|[->| ->]]; reflexivity.
  - pose proof (part_ok_no_slash _ Hps) as Hns.
    unfold pl_str, pl_parts. destruct Ha as [->|[->| ->]].
    + change ("" ++ join_slash (x :: l))%string with (join_slash (x :: l)).
      rewrite split_join_l by (discriminate || exact Hns). apply parts_filter_id, Hps.
    + unfold split_slash. rewrite split_go_slash, split_go_join by exact Hns.
      etransitivity; [|apply parts_filter_id, Hps]. reflexivity.
    + change ("//" ++ join_slash (x :: l))%string with ("/" ++ ("/" ++ join_slash (x :: l)))%string.
      unfold split_slash. rewrite !split_go_slash, split_go_join by exact Hns.
      etransitivity; [|apply parts_filter_id, Hps]. reflexivity.
Qed.

Lemma prefix_cons_same a p q : String.prefix (String a p) (String a q) = String.prefix p q.
Proof. cbn [String.prefix]. destruct (ascii_dec a a); [reflexivity|contradiction]. Qed.

Lemma prefix_slash_other p c t :
  Ascii.eqb c "/" = false -> String.prefix (String "/" p) (String c t) = false.
Proof.
  intros Hc. cbn [String.prefix]. destruct (ascii_dec "/" c) as [<-|]; [discriminate|reflexivity].
Qed.

Lemma pl_anchor_str a ps :
  is_anchor a -> Forall (fun c => part_ok c = true) ps -> pl_anchor (pl_str a ps) = a.
Proof.
  intros Ha Hps. destruct ps as [|x l].
  - destruct Ha as [->|[->| ->]]; reflexivity.
  - rewrite Forall_cons in Hps. destruct Hps as [Hx _].
    destruct (join_slash_head x l Hx) as (c & t & Hj & Hc).
    unfold pl_str, pl_anchor. rewrite Hj.
    destruct Ha as [->|[->| ->]];
      [ change ("" ++ String c t)%string with (String c t)
      | change ("/" ++ String c t)%string with (String "/" (String c t))
      | change ("//" ++ String c t)%string with (String "/" (String "/" (String c t))) ];
      rewrite ?prefix_cons_same;
      rewrite ?prefix_slash_other by exact Hc; reflexivity.
Qed.

Lemma pl_norm_str a ps :
  is_anchor a -> Forall (fun c => part_ok c = true) ps -> pl_norm (pl_str a ps) = pl_str a ps.
Proof.
  intros Ha Hps. unfold pl_norm. rewrite pl_anchor_str, pl_parts_str by assumption.
  reflexivity.
Qed.

(** [Path(base) / k] for a relative [k]: the components of [k] follow
    those of [base], under the anchor of [base]. *)
Lemma path_join_parts base k :
  pl_anchor k = "" ->
  pl_parts (path_join base k) = pl_parts base ++ pl_parts k /\
  pl_anchor (path_join base k) = pl_anchor base.
Proof.
  intros Hk. unfold path_join. rewrite Hk. simpl.
  assert (Hall : Forall (fun c => part_ok c = true) (pl_parts base ++ pl_parts k))
    by (apply Forall_app; split; apply pl_parts_ok).
  rewrite pl_parts_str, pl_anchor_str by (apply pl_anchor_cases || exact Hall). auto.
Qed.

(** The result of [Path(base) / k] prints as itself. *)
Lemma path_join_norm base k : pl_norm (path_join base k) = path_join base k.
Proof.
  unfold path_join. destruct (String.eqb (pl_anchor k) "").
  - apply pl_norm_str; [apply pl_anchor_cases|]. apply Forall_app. split; apply pl_parts_ok.
  - apply pl_norm_str; [apply pl_anchor_cases | apply pl_parts_ok].
Qed.

Lemma parts_prefix_app pre l : parts_prefix pre (pre ++ l) = Some l.
Proof. induction pre as [|x pre IH]; [reflexivity|]. simpl. rewrite String.eqb_refl. exact IH. Qed.

Lemma parts_prefix_inv pre l rest : parts_prefix pre l = Some rest -> l = pre ++ rest.
Proof.
  revert l. induction pre as [|x pre IH]; intros l H; simpl in H.
  - injection H as <-. reflexivity.
  - destruct l as [|y l]; [discriminate|].
    destruct (String.eqb_spec x y) as [<-|]; [|discriminate].
    rewrite (IH l H). reflexivity.
Qed.

Lemma relative_to_join base k :
  pl_anchor k = "" -> relative_to (path_join base k) base = Ok (pl_str "" (pl_parts k)).
Proof.
  intros Hk. destruct (path_join_parts base k Hk) as [Hp Ha].
  unfold relative_to. rewrite Hp, Ha, String.eqb_refl, parts_prefix_app. reflexivity.
Qed.

(** A path relative to [base] names [str(Path(p))] again below [base]. *)
Lemma relative_to_inv p base k : relative_to p base = Ok k -> pl_norm p = path_join base k.
Proof.
  unfold relative_to. destruct (String.eqb_spec (pl_anchor p) (pl_anchor base)) as [Ha|];
    [|discriminate].
  destruct (parts_prefix (pl_parts base) (pl_parts p)) as [rest|] eqn:E; [|discriminate].
  intros H. injection H as <-. apply parts_prefix_inv in E.
  assert (Hr : Forall (fun c => part_ok c = true) rest).
  { pose proof (pl_parts_ok p) as Hp. rewrite E in Hp. apply Forall_app in Hp. apply Hp. }
  assert (Ha0 : is_anchor "") by (left; reflexivity).
  unfold path_join, pl_norm. rewrite (pl_anchor_str "" rest Ha0 Hr). simpl.
  rewrite (pl_parts_str "" rest Ha0 Hr). rewrite Ha, E. reflexivity.
Qed.

Lemma report_file_not_cache_file root : report_file root <> cache_file root.
Proof.
  unfold report_file, cache_file, examples_dir, examples_parent. intros H.
  apply (f_equal pl_parts) in H.
  rewrite !(proj1 (path_join_parts _ "validation_report.json" eq_refl)),
    (proj1 (path_join_parts _ "validation_cache.json" eq_refl)),
    (proj1 (path_join_parts _ "_meta" eq_refl)),
    (proj1 (path_join_parts _ "docs_examples" eq_refl)),
    (proj1 (path_join_parts _ "TestPrograms" eq_refl)) in H.
  rewrite <- !app_assoc in H. apply app_inv_head in H. discriminate.
Qed.


Example neg_parse_passes :
  fst (run (validate_example
         (test_env true (tool (Completed 1 "" "Error: Unexpected Token at 3:4")
                           ok_proc ok_proc ok_proc)) "f.wfl" neg_parse_entry))
  = Ok (mkValidationResult "f.wfl" true PARSE None [] 12 []).
Proof. vm_compute. reflexivity. Qed.

Example neg_parse_wrong_reason :
  fst (run (validate_example
         (test_env true (tool (Completed 1 "" "file not found") ok_proc ok_proc ok_proc))
         "f.wfl" neg_parse_entry))
  = Ok (mkValidationResult "f.wfl" false PARSE (Some "file not found") [] 12 []).
Proof. vm_compute. reflexivity. Qed.

Example exec_ok_all_layers :
  run (validate_example (test_env true (tool ok_proc ok_proc ok_proc ok_proc))
         "f.wfl" (entry None None None None))
  = (Ok (mkValidationResult "f.wfl" true EXECUTE None [] 12 [1; 2; 3; 4; 5]),
     [CliCall "parse"; CliCall "analyze"; CliCall "lint"; ExecCall]).
Proof. vm_compute. reflexivity. Qed.

Example exit_error_text :
  exit_error (z_to_string (-1)) (z_to_string 0) "boom"
  = ("Exit code -1, expected 0" ++ nl ++ "Stderr: boom")%string.
Proof. reflexivity. Qed.

Example rel_path3_ex : rel_path3 "/r/TestPrograms/docs_examples/basic/a.wfl" = "docs_examples/basic/a.wfl".
Proof. reflexivity. Qed.


Lemma cli_outcome_with_lint env fp o cmd :
  cmd <> "lint"%string -> cli_outcome (with_lint env fp o) fp cmd = cli_outcome env fp cmd.
Proof.
  intros Hc. unfold cli_outcome, with_lint. cbn [binary_exists run_proc].
  rewrite bool_decide_eq_false_2; [reflexivity|].
  intros H. injection H as H. apply Hc.
  destruct cmd as [|a cmd]; [discriminate|]. cbn in H. injection H as -> H.
  repeat (destruct cmd as [|? cmd]; [discriminate|]; cbn in H; injection H as -> H).
  destruct cmd; [reflexivity|discriminate].
Qed.

Lemma exec_outcome_with_lint env fp o t :
  exec_outcome (with_lint env fp o) fp t = exec_outcome env fp t.
Proof.
  unfold exec_outcome, with_lint. cbn [binary_exists run_proc].
  rewrite bool_decide_eq_false_2; [reflexivity|]. discriminate.
Qed.

(** The outcome of the lint call never changes a run. *)
Lemma validate_example_with_lint env fp e o :
  run (validate_example (with_lint env fp o) fp e) = run (validate_example env fp e).
Proof.
  unfold run. unfold_executor.
  rewrite !cli_outcome_with_lint by discriminate. rewrite exec_outcome_with_lint.
  unfold validate_expected_error. cbn [fs utf8_ok read_error elapsed_ms re_search_i with_lint].
  head_split; finish_run.
Qed.

(* ------------------------------------------------------------------ *)
(** ** C1: expected-failure reconciliation *)

(** C1 (counterexample): an error example expected to fail at layer 4
    whose lint call fails with a diagnostic matching its pattern does not
    pass there: execution (layer 5) still runs, and the file fails. *)
Lemma C1_lint_layer_counterexample :
  layer_diag lint_fail_env "f.wfl" lint_neg_entry 4 = Some "style: unused variable"
  /\ validate_expected_error lint_fail_env "style: unused variable" "style" = true
  /\ run (validate_example lint_fail_env "f.wfl" lint_neg_entry)
     = (Ok (mkValidationResult "f.wfl" false EXECUTE
              (Some ("Exit code 3, expected 0" ++ nl ++ "Stderr: boom")%string)
              [] 12 [1; 4]),
        [CliCall "parse"; CliCall "lint"; ExecCall]).
Proof. vm_compute. repeat split. Qed.

(** C1 (amended): for an [error_example] which requests layer 1: if its
    [expected_failure_layer] is L in {1, 2, 5} and the tool invocation of
    layer L is made and fails with diagnostic [diag] (for layer 5: the
    exit code differs and [diag] is [stderr or stdout]), then that call is
    the last one of the run, the run ends at layer L, and it succeeds
    exactly when the case-insensitive search of the pattern in [diag]
    finds a match; if its [expected_failure_layer] is 4, the failure is
    never reconciled: the run is the same whatever the outcome [o] of the
    lint call. *)
Theorem C1_expected_failure env fp e :
  is_error_example (entry_type e) = true ->
  list_mem 1 (entry_layers e) = true ->
  (forall L diag res tr,
     L = 1 \/ L = 2 \/ L = 5 ->
     expected_failure_layer e = Some L ->
     layer_diag env fp e L = Some diag ->
     run (validate_example env fp e) = (res, tr) ->
     In (layer_call L) tr ->
     exists r, res = Ok r /\ success r = validate_expected_error env diag (entry_pattern e)
       /\ layer_value (layer r) = L /\ final_call tr = Some (layer_call L)) /\
  (expected_failure_layer e = Some 4 ->
   forall o, run (validate_example (with_lint env fp o) fp e) = run (validate_example env fp e)).
Proof.
  intros Hee H1. split.
  - intros L diag res tr HL Hefl.
    apply efl_is_some in Hefl.
    unfold run, layer_diag, layer_call, layer_command.
    destruct HL as [-> | [-> | ->]]; cbn - [validate_example exec_outcome cli_outcome];
    revert Hee Hefl H1; unfold_executor; head_split; finish_run.
    all: eexists; (split; [reflexivity|]); repeat split; simpl; congruence.
  - intros _ o. apply validate_example_with_lint.
Qed.

Lemma C1_expected_failure_witness :
  exists r, fst (run (validate_example unexpected_token_env "f.wfl" neg_parse_entry)) = Ok r
    /\ success r = true.
Proof.
  destruct (proj1 (C1_expected_failure unexpected_token_env "f.wfl" neg_parse_entry
                     ltac:(vm_compute; reflexivity) ltac:(vm_compute; reflexivity))
              1 "Error: Unexpected Token at 3:4"
              (fst (run (validate_example unexpected_token_env "f.wfl" neg_parse_entry)))
              (snd (run (validate_example unexpected_token_env "f.wfl" neg_parse_entry))))
    as (r & Hr & Hs & _).
  - left. reflexivity.
  - vm_compute. reflexivity.
  - vm_compute. reflexivity.
  - vm_compute. reflexivity.
  - vm_compute. left. reflexivity.
  - exists r. split; [exact Hr|]. rewrite Hs. vm_compute. reflexivity.
Defined.

(* ------------------------------------------------------------------ *)
(** ** C2: unexpected failures end the run *)




(* ------------------------------------------------------------------ *)
(** ** C3: the staleness decider and [--force] *)

(** [--force] selects every existing, category-kept manifest entry. *)
Lemma select_files_forced env base m c cat ms :
  select_files env base m c cat true ms = Ok (forced_selection env base cat ms).
Proof.
  induction ms as [|[k me] ms IH]; [reflexivity|].
  unfold forced_selection in *. cbn [select_files List.filter fst snd].
  destruct (path_exists env (path_join base k)); cbn [negb andb]; [|exact IH].
  destruct (category_excludes cat k); cbn; rewrite IH; reflexivity.
Qed.


(** C3 (code bug): for a readable file whose key is in the manifest,
    [should_validate] returns [False] exactly when a cache entry exists
    whose content_hash equals the fresh fingerprint and whose
    last_validated is missing or empty, or parses to an instant with a UTC
    offset whose age in whole days, rounded down by [.days], is at most 7:
    an entry up to just under 8 days old, and one without a timestamp, is
    skipped. It raises exactly when the timestamp parses to a datetime
    without UTC offset, with the [TypeError] of the subtraction. A
    [--force] selection takes every manifest entry whose path exists and
    which the category filter keeps, without consulting the decider. *)
Theorem C3_staleness env fp m c bytes :
  in_manifest (rel_path3 fp) m = true ->
  fs env fp = Some bytes ->
  (should_validate env fp m c = Ok false <->
    exists ce, cache_files c !! rel_path3 fp = Some ce /\
      default "" (content_hash ce) = ("sha256:" ++ sha256_hex env bytes)%string /\
      (default "" (last_validated ce) = "" \/
       exists d, fromisoformat env (replace_Z (default "" (last_validated ce))) = Some d /\
                 dt_aware d = true /\ (now_us env - dt_us d) / us_per_day <= 7))
  /\ (forall ex, should_validate env fp m c = Raise ex <->
      ex = TypeError /\
      exists ce d, cache_files c !! rel_path3 fp = Some ce /\
        default "" (content_hash ce) = ("sha256:" ++ sha256_hex env bytes)%string /\
        default "" (last_validated ce) <> ""%string /\
        fromisoformat env (replace_Z (default "" (last_validated ce))) = Some d /\
        dt_aware d = false)
  /\ (forall base cat ms, select_files env base m c cat true ms = Ok (forced_selection env base cat ms)).
Proof.
  intros Hin Hfs.
  split; [|split; [|intros; apply select_files_forced]].
  - unfold should_validate, compute_file_hash. rewrite Hin, Hfs. cbn [negb].
    destruct (cache_files c !! rel_path3 fp) as [ce|] eqn:Hc.
    2:{ split; [discriminate|]. intros (ce & H & _). discriminate. }
    destruct (String.eqb _ (default "" (content_hash ce))) eqn:Eh; cbn [negb].
    2:{ split; [discriminate|]. intros (ce' & H & Hh & _). injection H as <-.
        rewrite Hh, String.eqb_refl in Eh. discriminate. }
    apply String.eqb_eq in Eh.
    destruct (String.eqb (default "" (last_validated ce)) "") eqn:El.
    { split; [|reflexivity]. intros _. exists ce. apply String.eqb_eq in El. auto. }
    assert (Hne : default "" (last_validated ce) <> ""%string).
    { intros H. rewrite H in El. discriminate. }
    destruct (fromisoformat env (replace_Z (default "" (last_validated ce)))) as [d|] eqn:Hp.
    2:{ split; [discriminate|]. intros (ce' & H & _ & [H2 | (d & H2 & _)]); injection H as <-;
        [contradiction | congruence]. }
    unfold age_days. destruct (dt_aware d) eqn:Ha.
    2:{ split; [discriminate|]. intros (ce' & H & _ & [H2 | (d' & H2 & Ha' & _)]);
        injection H as <-; [contradiction|]. rewrite Hp in H2. injection H2 as <-. congruence. }
    destruct (Z.gtb_spec ((now_us env - dt_us d) / us_per_day) 7) as [Hgt|Hle].
    + split; [discriminate|]. intros (ce' & H & _ & [H2 | (d' & H2 & _ & H3)]); injection H as <-;
        [contradiction|]. rewrite Hp in H2. injection H2 as <-. lia.
    + split; [|reflexivity]. intros _. exists ce. split; [reflexivity|]. split; [congruence|].
      right. exists d. auto.
  - intros ex. unfold should_validate, compute_file_hash. rewrite Hin, Hfs. cbn [negb].
    destruct (cache_files c !! rel_path3 fp) as [ce|] eqn:Hc.
    2:{ split; [discriminate|]. intros (_ & ce & d & H & _). discriminate. }
    destruct (String.eqb_spec ("sha256:" ++ sha256_hex env bytes)%string
                (default "" (content_hash ce))) as [Hh|Hh]; cbn [negb].
    2:{ split; [discriminate|]. intros (_ & ce' & d & H & Hh' & _). injection H as <-.
        congruence. }
    destruct (String.eqb_spec (default "" (last_validated ce)) "") as [Hl|Hl].
    { split; [discriminate|]. intros (_ & ce' & d & H & _ & Hl' & _). injection H as <-.
      contradiction. }
    destruct (fromisoformat env (replace_Z (default "" (last_validated ce)))) as [d|] eqn:Hp.
    2:{ split; [discriminate|]. intros (_ & ce' & d & H & _ & _ & Hp' & _). injection H as <-.
        congruence. }
    unfold age_days. destruct (dt_aware d) eqn:Ha.
    + split; [destruct (_ >? 7); discriminate|].
      intros (_ & ce' & d' & H & _ & _ & Hp' & Ha'). injection H as <-.
      rewrite Hp in Hp'. injection Hp' as <-. congruence.
    + split.
      * intros H. injection H as <-. split; [reflexivity|]. exists ce, d. auto 6.
      * intros [-> _]. reflexivity.
Qed.

Lemma C3_staleness_witness :
  should_validate sv_env sv_fp sv_manifest (cache_with ce_week_and_half) = Ok false
  /\ should_validate sv_env sv_fp sv_manifest (cache_with ce_no_timestamp) = Ok false
  /\ should_validate sv_env sv_fp sv_manifest (cache_with ce_naive) = Raise TypeError.
Proof.
  split; [|split].
  - destruct (C3_staleness sv_env sv_fp sv_manifest (cache_with ce_week_and_half) [Byte.x61])
      as [Hiff _].
    + vm_compute. reflexivity.
    + vm_compute. reflexivity.
    + apply Hiff. exists ce_week_and_half. split; [vm_compute; reflexivity|].
      split; [vm_compute; reflexivity|]. right.
      exists (mkDateTime (20736 * us_per_day + us_per_day / 2) true).
      split; [vm_compute; reflexivity|]. split; [reflexivity|]. vm_compute. discriminate.
  - destruct (C3_staleness sv_env sv_fp sv_manifest (cache_with ce_no_timestamp) [Byte.x61])
      as [Hiff _].
    + vm_compute. reflexivity.
    + vm_compute. reflexivity.
    + apply Hiff. exists ce_no_timestamp. split; [vm_compute; reflexivity|].
      split; [vm_compute; reflexivity|]. left. reflexivity.
  - destruct (C3_staleness sv_env sv_fp sv_manifest (cache_with ce_naive) [Byte.x61])
      as [_ [Hraise _]].
    + vm_compute. reflexivity.
    + vm_compute. reflexivity.
    + apply Hraise. split; [reflexivity|].
      exists ce_naive, (mkDateTime (20743 * us_per_day) false).
      split; [vm_compute; reflexivity|]. split; [vm_compute; reflexivity|].
      split; [vm_compute; discriminate|]. split; [vm_compute; reflexivity|]. reflexivity.
Defined.

(* ------------------------------------------------------------------ *)
(** ** C10: the cached validation result is not read *)

(** C10: for a readable file whose key is in the manifest, a cache entry
    with the fresh fingerprint and a timestamp (with UTC offset) at most 7
    days old makes [should_validate] return [False], whatever the entry's
    validation_result, e.g. 'fail'. *)
Theorem C10_result_not_read env fp m c bytes ce lv d :
  in_manifest (rel_path3 fp) m = true ->
  fs env fp = Some bytes ->
  cache_files c !! rel_path3 fp = Some ce ->
  content_hash ce = Some ("sha256:" ++ sha256_hex env bytes)%string ->
  last_validated ce = Some lv ->
  fromisoformat env (replace_Z lv) = Some d ->
  dt_aware d = true ->
  now_us env - dt_us d <= 7 * us_per_day ->
  should_validate env fp m c = Ok false.
Proof.
  intros Hin Hfs Hc Hh Hl Hp Ha Hage.
  unfold should_validate, compute_file_hash. rewrite Hin, Hfs, Hc, Hh, Hl. cbn [negb default].
  rewrite String.eqb_refl. cbn [negb id].
  destruct (String.eqb lv ""); [reflexivity|].
  rewrite Hp. unfold age_days. rewrite Ha.
  assert (Hd : (now_us env - dt_us d) / us_per_day <= 7).
  { apply Z.div_le_upper_bound; unfold us_per_day in *; lia. }
  destruct (Z.gtb_spec ((now_us env - dt_us d) / us_per_day) 7); [lia | reflexivity].
Qed.

Lemma C10_result_not_read_witness :
  validation_result ce_fresh_fail = Some "fail"%string
  /\ should_validate sv_env sv_fp sv_manifest (cache_with ce_fresh_fail) = Ok false.
Proof.
  split; [reflexivity|].
  apply (C10_result_not_read sv_env sv_fp sv_manifest (cache_with ce_fresh_fail) [Byte.x61]
           ce_fresh_fail "2026-10-17T00:00:00+00:00" (mkDateTime (20743 * us_per_day) true));
    vm_compute; try reflexivity; discriminate.
Defined.

(* ------------------------------------------------------------------ *)
(** ** C4: entries that do not request layer 1 *)

(** C4: for a readable file whose entry does not request layer 1,
    [validate_example] always raises: [result_layers] is bound only in the
    layer-1 block, and every later path reads it (e.g. [validate_layers]
    [[2]] or [[5]]). *)
Theorem C4_missing_layer1_raises env fp e bytes tr :
  fs env fp = Some bytes -> utf8_ok env bytes = true ->
  list_mem 1 (entry_layers e) = false ->
  exists tr', validate_example env fp e tr = (Raise UnboundLocalError, tr').
Proof.
  intros Hfs Hu H1. revert Hfs Hu H1. unfold_executor. head_split; finish_run; eauto.
Qed.

Lemma C4_missing_layer1_raises_witness :
  exists tr', validate_example sv_env "f.wfl" (entry (Some [2]) None None None) []
              = (Raise UnboundLocalError, tr').
Proof. apply (C4_missing_layer1_raises sv_env "f.wfl" _ [Byte.x61]); reflexivity. Defined.

(* ------------------------------------------------------------------ *)
(** ** C5: layer 3 makes no call, a lint failure never ends the run *)

(** C5: for an entry requesting exactly the layers 1, 2, 4 and 5, the
    outcome of the lint call changes nothing (the run with any lint outcome
    [o] equals the original run), the calls made are a prefix of
    parse, analyze, lint, execute (layer 3 makes no call of its own), and
    when parse and analyze succeed and execution is not skipped, the run
    makes all four calls and records layer 4 as passed. *)
Theorem C5_lint_never_halts env fp e o :
  (forall k, list_mem k (entry_layers e) = (k =? 1) || (k =? 2) || (k =? 4) || (k =? 5)) ->
  run (validate_example (with_lint env fp o) fp e) = run (validate_example env fp e)
  /\ (exists n, snd (run (validate_example env fp e))
                = firstn n [CliCall "parse"; CliCall "analyze"; CliCall "lint"; ExecCall])
  /\ (forall bytes, fs env fp = Some bytes -> utf8_ok env bytes = true ->
      fst (cli_outcome env fp "parse") = true -> fst (cli_outcome env fp "analyze") = true ->
      default false (skip_execution e) = false ->
      exists r, run (validate_example env fp e)
                = (Ok r, [CliCall "parse"; CliCall "analyze"; CliCall "lint"; ExecCall])
             /\ In 4 (layers_passed r)).
Proof.
  intros Hl.
  assert (H1 := Hl 1). assert (H2 := Hl 2). assert (H3 := Hl 3).
  assert (H4 := Hl 4). assert (H5 := Hl 5). cbn in H1, H2, H3, H4, H5.
  split; [|split].
  - unfold run. unfold_executor.
    rewrite !cli_outcome_with_lint by discriminate. rewrite exec_outcome_with_lint.
    unfold validate_expected_error. cbn [fs utf8_ok read_error elapsed_ms re_search_i with_lint].
    rewrite H1, H2, H3, H4, H5. head_split; finish_run.
  - unfold run. unfold_executor. rewrite H1, H2, H3, H4, H5. head_split; finish_run.
    all: first [ exists 0%nat; reflexivity | exists 1%nat; reflexivity
               | exists 2%nat; reflexivity | exists 3%nat; reflexivity
               | exists 4%nat; reflexivity ].
  - intros bytes Hfs Hu Hp Ha Hs. revert Hp Ha Hs. unfold run. unfold_executor.
    rewrite Hfs, Hu, H1, H2, H3, H4, H5. head_split; finish_run.
    all: eexists; split; [reflexivity|]; simpl; tauto.
Qed.

Lemma C5_lint_never_halts_witness :
  run (validate_example (with_lint sv_env "f.wfl" (Completed 1 "" "lint error"))
         "f.wfl" (entry (Some [1; 2; 4; 5]) None None None))
  = run (validate_example sv_env "f.wfl" (entry (Some [1; 2; 4; 5]) None None None)).
Proof.
  apply (C5_lint_never_halts sv_env "f.wfl" (entry (Some [1; 2; 4; 5]) None None None)
           (Completed 1 "" "lint error")).
  intros k. cbn.
  destruct (k =? 1), (k =? 2), (k =? 3), (k =? 4), (k =? 5); reflexivity.
Defined.

(* ------------------------------------------------------------------ *)
(** ** C6: an absent binary *)





(* ------------------------------------------------------------------ *)
(** ** Batch runs: selection, partition and counts *)

Lemma validate_each_spec env todo p0 f0 tr x tr' :
  validate_each env todo p0 f0 tr = (x, tr') ->
  tool_ext tr tr' /\
  (forall p f, x = Ok (p, f) ->
   exists rs, map file_path rs = map fst todo /\
     p = p0 ++ List.filter success rs /\
     f = f0 ++ List.filter (fun r => negb (success r)) rs).
Proof.
  revert p0 f0 tr. induction todo as [|[fp e] todo IH]; intros p0 f0 tr H.
  - simpl in H. unfold ret in H. injection H as <- <-. split; [apply tool_ext_refl|].
    intros p f Hpf. injection Hpf as <- <-. exists [].
    rewrite !app_nil_r. auto.
  - simpl in H. unfold bind at 1 in H.
    destruct (validate_example env fp e tr) as [[r|ex] tr1] eqn:E.
    + apply validate_example_shape in E as [Ht Hp]. specialize (Hp r eq_refl).
      destruct (success r) eqn:Hs; apply IH in H as [Ht' Hx];
        (split; [eapply tool_ext_trans; eauto|]);
        intros p f Hpf; destruct (Hx p f Hpf) as (rs & Hm & -> & ->);
        exists (r :: rs); simpl; rewrite Hs, Hm, Hp; simpl;
        rewrite <- !app_assoc; auto.
    + injection H as <- <-. apply validate_example_shape in E as [Ht _].
      split; [exact Ht | discriminate].
Qed.

Lemma select_files_spec env base m c cat force ms todo :
  select_files env base m c cat force ms = Ok todo ->
  exists sub, sublist sub ms /\
    todo = map (fun kv => (path_join base kv.1, kv.2)) sub /\
    Forall (fun kv => force = false ->
              should_validate env (path_join base kv.1) m c = Ok true) sub.
Proof.
  revert todo. induction ms as [|[k me] ms IH]; intros todo H.
  - simpl in H. injection H as <-. exists []. repeat constructor.
  - simpl in H.
    destruct (path_exists env (path_join base k)); simpl in H.
    2:{ destruct (IH _ H) as (sub & ? & ? & ?). exists sub. split; [constructor|]; auto. }
    destruct (category_excludes cat k).
    { destruct (IH _ H) as (sub & ? & ? & ?). exists sub. split; [constructor|]; auto. }
    destruct force; simpl in H.
    + destruct (select_files env base m c cat true ms) as [sel|] eqn:E; [|discriminate].
      injection H as <-. destruct (IH _ eq_refl) as (sub & ? & -> & ?).
      exists ((k, me) :: sub). split; [constructor; auto|]. split; [reflexivity|].
      constructor; [discriminate|auto].
    + destruct (should_validate env (path_join base k) m c) as [[]|] eqn:Es; [|  |discriminate].
      * destruct (select_files env base m c cat false ms) as [sel|] eqn:E; [|discriminate].
        injection H as <-. destruct (IH _ eq_refl) as (sub & ? & -> & ?).
        exists ((k, me) :: sub). split; [constructor; auto|]. split; [reflexivity|].
        constructor; [auto|auto].
      * destruct (IH _ H) as (sub & ? & ? & ?). exists sub. split; [constructor|]; auto.
Qed.

Lemma validate_all_examples_spec env base m c cat force sf tr x tr' :
  validate_all_examples env base m c cat force sf tr = (x, tr') ->
  tool_ext tr tr' /\
  (forall p f, x = Ok (p, f) ->
   exists todo rs, executed_files env base m c cat force sf = Ok todo /\
     map file_path rs = map fst todo /\
     p = List.filter success rs /\
     f = List.filter (fun r => negb (success r)) rs).
Proof.
  unfold validate_all_examples, executed_files, lift, bind, ret, raise.
  destruct sf as [sf|].
  - destruct (relative_to sf base) as [rel|ex].
    2:{ intros H. injection H as <- <-. split; [apply tool_ext_refl | discriminate]. }
    destruct (manifest_lookup rel m) as [me|].
    2:{ intros H. injection H as <- <-. split; [apply tool_ext_refl|].
        intros p f Hpf. injection Hpf as <- <-. exists [], []. auto. }
    destruct (validate_example env sf me tr) as [[r|ex] tr1] eqn:E;
      apply validate_example_shape in E as [Ht Hp].
    2:{ intros H. injection H as <- <-. split; [exact Ht | discriminate]. }
    intros H. split.
    + destruct (success r); injection H as _ <-; exact Ht.
    + intros p f Hpf. exists [(sf, me)], [r]. simpl. rewrite (Hp r eq_refl).
      destruct (success r); injection H as H <-; subst x;
        injection Hpf as <- <-; auto.
  - destruct (select_files env base m c cat force m) as [todo|ex].
    2:{ intros H. injection H as <- <-. split; [apply tool_ext_refl | discriminate]. }
    intros H. apply validate_each_spec in H as [Ht Hx]. split; [exact Ht|].
    intros p f Hpf. destruct (Hx p f Hpf) as (rs & ? & -> & ->). exists todo, rs. auto.
Qed.

Lemma filter_success_perm (l : list ValidationResult) :
  Permutation (List.filter success l ++ List.filter (fun r => negb (success r)) l) l.
Proof.
  induction l as [|r l IH]; [constructor|]. simpl.
  destruct (success r); simpl.
  - constructor. exact IH.
  - symmetry. apply Permutation_cons_app. symmetry. exact IH.
Qed.

Lemma NoDup_map_inj {A B} (f : A -> B) (l : list A) :
  (forall x y, f x = f y -> x = y) -> List.NoDup l -> List.NoDup (map f l).
Proof.
  intros Hf Hl. induction Hl as [|x l Hx Hl IH]; simpl; constructor; auto.
  rewrite in_map_iff. intros (y & Hy & Hin). apply Hf in Hy. subst. auto.
Qed.

Lemma NoDup_map_sublist {A B} (g : A -> B) (l1 l2 : list A) :
  sublist l1 l2 -> List.NoDup (map g l2) -> List.NoDup (map g l1).
Proof.
  induction 1 as [|x l1 l2 Hs IH|x l1 l2 Hs IH]; simpl; intros Hnd; [constructor| |].
  - inversion Hnd as [|? ? Hx Hnd']; subst. constructor; auto.
    intros Hin. apply Hx. apply in_map_iff in Hin as (y & <- & Hy).
    apply in_map. apply list_elem_of_In. eapply elem_of_submseteq;
      [apply list_elem_of_In; exact Hy | apply sublist_submseteq; assumption].
  - inversion Hnd; subst. auto.
Qed.

Lemma filter_filter_same (f : ValidationResult -> bool) l :
  List.filter f (List.filter f l) = List.filter f l.
Proof.
  induction l as [|r l IH]; [reflexivity|]. simpl.
  destruct (f r) eqn:E; simpl; [rewrite E, IH|]; auto.
Qed.

Lemma executed_files_nodup env base m c cat force sf todo :
  List.NoDup (map (fun kv => path_join base kv.1) m) ->
  executed_files env base m c cat force sf = Ok todo -> List.NoDup (map fst todo).
Proof.
  intros Hm. unfold executed_files. destruct sf as [sf|].
  - destruct (relative_to sf base); [|discriminate].
    destruct (manifest_lookup _ m); intros H; injection H as <-; simpl;
      repeat constructor; auto.
  - intros H. apply select_files_spec in H as (sub & Hsub & -> & _).
    rewrite map_map. simpl. eapply NoDup_map_sublist; eauto.
Qed.

Lemma executed_files_skipped env base m c cat todo k :
  executed_files env base m c cat false None = Ok todo ->
  should_validate env (path_join base k) m c = Ok false ->
  ~ In (path_join base k) (map fst todo).
Proof.
  unfold executed_files. intros H Hk Hin.
  apply select_files_spec in H as (sub & _ & -> & Hall).
  rewrite map_map in Hin. apply in_map_iff in Hin as ([k' me] & Hj & Hkv).
  simpl in Hj. rewrite List.Forall_forall in Hall.
  specialize (Hall _ Hkv eq_refl). simpl in Hall. rewrite Hj, Hk in Hall. discriminate.
Qed.

Lemma batch_results env base m c cat force sf passed failed tr :
  run (validate_all_examples env base m c cat force sf) = (Ok (passed, failed), tr) ->
  exists todo, executed_files env base m c cat force sf = Ok todo /\
    Permutation (map file_path (passed ++ failed)) (map fst todo) /\
    (List.NoDup (map (fun kv => path_join base kv.1) m) ->
     List.NoDup (map file_path (passed ++ failed))) /\
    passed = List.filter success passed /\
    failed = List.filter (fun r => negb (success r)) failed /\
    (forall k, sf = None -> force = false ->
       should_validate env (path_join base k) m c = Ok false ->
       ~ In (path_join base k) (map file_path (passed ++ failed))).
Proof.
  intros H. apply validate_all_examples_spec in H as [_ Hx].
  destruct (Hx passed failed eq_refl) as (todo & rs & He & Hrs & Hp & Hf).
  assert (Hperm : Permutation (map file_path (passed ++ failed)) (map fst todo)).
  { rewrite <- Hrs, Hp, Hf. apply Permutation_map, filter_success_perm. }
  exists todo. split; [exact He|]. split; [exact Hperm|]. split.
  { intros Hm. eapply Permutation_NoDup; [symmetry; exact Hperm|].
    eapply executed_files_nodup; eauto. }
  split; [rewrite Hp, filter_filter_same; reflexivity|].
  split; [rewrite Hf, filter_filter_same; reflexivity|].
  intros k -> -> Hk Hin. subst. eapply executed_files_skipped; eauto.
  eapply Permutation_in; eauto.
Qed.

(** C7: in every run that returns, [passed] holds successes and
    [failed] failures (so no result is in both), the results are about
    exactly the files handed to [validate_example] ([executed_files]), one
    result per file and no file twice when the manifest keys name distinct
    paths below [base],
    [len(passed) + len(failed)] is the number of those files, a file the
    staleness check skips in a non-forced batch run is in neither list,
    and the report satisfies [passed + failed == validated]. *)
Theorem C7_count_invariant env base m c cat force sf passed failed tr :
  run (validate_all_examples env base m c cat force sf) = (Ok (passed, failed), tr) ->
  exists todo, executed_files env base m c cat force sf = Ok todo /\
    Permutation (map file_path (passed ++ failed)) (map fst todo) /\
    (length passed + length failed = length todo)%nat /\
    (List.NoDup (map (fun kv => path_join base kv.1) m) ->
     List.NoDup (map file_path (passed ++ failed))) /\
    Forall (fun r => success r = true) passed /\
    Forall (fun r => success r = false) failed /\
    (forall k, sf = None -> force = false ->
       should_validate env (path_join base k) m c = Ok false ->
       ~ In (path_join base k) (map file_path (passed ++ failed))) /\
    (let rep := generate_report env passed failed in
     passed_count rep + failed_count rep = validated rep /\
     validated rep = Z.of_nat (length todo)).
Proof.
  intros H.
  destruct (batch_results env base m c cat force sf passed failed tr H)
    as (todo & He & Hperm & Hnd & Hp & Hf & Hskip).
  assert (Hlen : (length passed + length failed = length todo)%nat).
  { rewrite <- length_app, <- (length_map file_path (passed ++ failed)),
      <- (length_map fst todo). apply Permutation_length, Hperm. }
  exists todo. do 4 (split; [assumption|]).
  split.
  { rewrite Hp, List.Forall_forall. intros r Hr. apply filter_In in Hr. apply Hr. }
  split.
  { rewrite Hf, List.Forall_forall. intros r Hr. apply filter_In in Hr.
    destruct (success r); [discriminate (proj2 Hr) | reflexivity]. }
  split; [exact Hskip|].
  simpl. split; [reflexivity|]. rewrite <- Hlen. lia.
Qed.


Lemma C7_count_invariant_witness :
  exists todo,
    executed_files sv_env "/r/TestPrograms" two_manifest (cache_with ce_fresh_fail) None false None
      = Ok todo
    /\ length todo = 1%nat /\ ~ In sv_fp (map file_path [full_pass b_fp]).
Proof.
  destruct (C7_count_invariant sv_env "/r/TestPrograms" two_manifest (cache_with ce_fresh_fail)
              None false None [full_pass b_fp] [] run_calls) as (todo & He & _ & Hlen & _ & _ & _ & Hskip & _).
  - vm_compute. reflexivity.
  - exists todo. split; [exact He|]. split; [simpl in Hlen; lia|].
    apply (Hskip sv_key eq_refl eq_refl). vm_compute. reflexivity.
Defined.

(* ------------------------------------------------------------------ *)
(** ** Cache writes *)

Lemma update_files_frame env base rs cf cf' k :
  update_files env base rs cf = Ok cf' ->
  (forall r, In r rs -> relative_to (file_path r) base <> Ok k) ->
  cf' !! k = cf !! k.
Proof.
  revert cf. induction rs as [|r rs IH]; intros cf H Hk; simpl in H.
  - injection H as <-. reflexivity.
  - destruct (relative_to (file_path r) base) as [rel|] eqn:Hrel; [|discriminate].
    destruct (compute_file_hash env (file_path r)) as [h|]; [|discriminate].
    rewrite (IH _ H) by (intros r' Hr'; apply Hk; right; exact Hr').
    apply lookup_insert_ne. intros ->. apply (Hk r (or_introl eq_refl)). exact Hrel.
Qed.

Lemma update_files_written env base rs cf cf' :
  update_files env base rs cf = Ok cf' ->
  List.NoDup (map (fun r => pl_norm (file_path r)) rs) ->
  forall r, In r rs -> exists rel h,
    relative_to (file_path r) base = Ok rel /\
    compute_file_hash env (file_path r) = Ok h /\
    cf' !! rel = Some (fresh_entry env h r).
Proof.
  revert cf. induction rs as [|r0 rs IH]; intros cf H Hnd r Hr; [destruct Hr|].
  simpl in H. inversion Hnd as [|? ? Hnot Hnd']; subst.
  destruct (relative_to (file_path r0) base) as [rel|] eqn:Hrel; [|discriminate].
  destruct (compute_file_hash env (file_path r0)) as [h|] eqn:Hh; [|discriminate].
  destruct Hr as [<-|Hr]; [|exact (IH _ H Hnd' r Hr)].
  exists rel, h. split; [exact Hrel|]. split; [exact Hh|].
  rewrite (update_files_frame env base rs _ _ rel H).
  - apply lookup_insert_eq.
  - intros r' Hr' Hrel'. apply Hnot.
    apply relative_to_inv in Hrel. apply relative_to_inv in Hrel'.
    rewrite Hrel, <- Hrel'. apply (in_map (fun r => pl_norm (file_path r))). exact Hr'.
Qed.

Lemma tool_ext_no_write tr w : tool_ext [] tr -> ~ In (FileWrite w) tr.
Proof.
  intros [ext [-> Hall]] Hin. simpl in Hin.
  rewrite List.Forall_forall in Hall. specialize (Hall _ Hin). discriminate.
Qed.

Lemma file_writes_app a b : file_writes (a ++ b) = file_writes a ++ file_writes b.
Proof. apply flat_map_app. Qed.

Lemma tool_ext_file_writes tr : tool_ext [] tr -> file_writes tr = [].
Proof.
  intros [ext [-> Hall]]. simpl. induction Hall as [|c ext Hc _ IH]; [reflexivity|].
  simpl. rewrite IH. destruct c; [reflexivity|reflexivity|discriminate].
Qed.

(** [main] under [--ci]: tool calls, then at most the report. *)
Lemma main_ci env disk root args res tr :
  arg_ci args = true -> run (main env disk root args) = (res, tr) ->
  exists tr1, tool_ext [] tr1 /\
    (tr = tr1 \/ exists rep, tr = tr1 ++ [FileWrite (WriteReport (report_file root) rep)]).
Proof.
  intros Hci. unfold run, main. destruct (manifest_json disk) as [raw|].
  2:{ intros H. injection H as _ <-. exists []. split; [apply tool_ext_refl | left; reflexivity]. }
  unfold bind at 1. destruct (validate_all_examples _ _ _ _ _ _ _ []) as [y tr1] eqn:E.
  apply validate_all_examples_spec in E as [Ht _]. intros H. exists tr1. split; [exact Ht|].
  destruct y as [[pa fa]|ex]; [|injection H as _ <-; left; reflexivity].
  revert H. rewrite Hci. unfold bind, ret, emit, raise, write_file. simpl.
  destruct (arg_report args); [destruct (write_error env (report_file root))|]; simpl;
    intros H; injection H as _ <-; first [left; reflexivity | right; eexists; reflexivity].
Qed.

(** [main] outside [--ci], once validation has returned: the cache
    update, the cache write, then at most the report. *)
Lemma main_noci env disk root args raw pa fa tr1 res tr :
  arg_ci args = false -> manifest_json disk = Some raw ->
  run (validate_all_examples env (examples_parent root) (drop_schema raw)
         (loaded_cache disk (arg_force args)) (arg_category args) (arg_force args)
         (arg_file args)) = (Ok (pa, fa), tr1) ->
  run (main env disk root args) = (res, tr) ->
  match update_cache env (loaded_cache disk (arg_force args)) (pa ++ fa) (examples_parent root) with
  | Raise e => res = Raise e /\ tr = tr1
  | Ok c =>
      match write_error env (cache_file root) with
      | Some e => res = Raise e /\ tr = tr1
      | None => exists rest,
          tr = tr1 ++ FileWrite (WriteCache (cache_file root)
                 (mkCache (files c) (Some (get_wfl_version env)) (Some (now_iso env)))) :: rest /\
          (rest = [] \/ exists rep, rest = [FileWrite (WriteReport (report_file root) rep)])
      end
  end.
Proof.
  intros Hci Hraw E. unfold run in *. unfold main. rewrite Hraw. unfold bind at 1. rewrite E.
  rewrite Hci. unfold bind, ret, emit, lift, raise, write_file. simpl.
  destruct (update_cache _ _ _ _) as [c|e]; simpl; [|intros H; injection H as <- <-; auto].
  destruct (write_error env (cache_file root)) as [e|]; simpl;
    [intros H; injection H as <- <-; auto|].
  destruct (arg_report args); [destruct (write_error env (report_file root)) as [e|]|]; simpl;
    intros H; injection H as _ <-;
    first [ exists []; split; [reflexivity | left; reflexivity]
          | eexists; split; [rewrite <- app_assoc; reflexivity | right; eexists; reflexivity] ].
Qed.

Lemma noci_cache_write root tr1 q c' rest p c :
  tool_ext [] tr1 ->
  (rest = [] \/ exists rep, rest = [FileWrite (WriteReport (report_file root) rep)]) ->
  In (FileWrite (WriteCache p c)) (tr1 ++ FileWrite (WriteCache q c') :: rest) -> p = q /\ c = c'.
Proof.
  intros Ht Hr Hin. apply in_app_or in Hin as [Hin|[Hin|Hin]].
  - destruct (tool_ext_no_write _ _ Ht Hin).
  - injection Hin as -> ->. auto.
  - destruct Hr as [->|[rep ->]]; [destruct Hin|]. destruct Hin as [Hin|[]]. discriminate.
Qed.

(** C8: in a [--ci] run the only file written is the report
    (validation_report.json, when [--report] is given), which is not the
    cache file; the cache file is never written. *)
Theorem C8_ci_no_cache_write env disk root args res tr :
  arg_ci args = true ->
  run (main env disk root args) = (res, tr) ->
  (forall p c, ~ In (FileWrite (WriteCache p c)) tr) /\
  (forall w, In (FileWrite w) tr -> exists r, w = WriteReport (report_file root) r) /\
  report_file root <> cache_file root.
Proof.
  intros Hci Hrun. destruct (main_ci _ _ _ _ _ _ Hci Hrun) as (tr1 & Ht & [->|[rep ->]]).
  - split; [intros p c Hin; exact (tool_ext_no_write _ _ Ht Hin)|].
    split; [intros w Hin; destruct (tool_ext_no_write _ _ Ht Hin)|].
    apply report_file_not_cache_file.
  - split; [|split; [|apply report_file_not_cache_file]].
    + intros p c Hin. apply in_app_or in Hin as [Hin|[Hin|[]]];
        [exact (tool_ext_no_write _ _ Ht Hin) | discriminate].
    + intros w Hin. apply in_app_or in Hin as [Hin|[Hin|[]]];
        [destruct (tool_ext_no_write _ _ Ht Hin) | injection Hin as <-; eexists; reflexivity].
Qed.

Lemma C8_ci_no_cache_write_witness :
  ~ In (FileWrite (WriteCache (cache_file "/r") cache_written))
      (run_calls ++ [FileWrite (WriteReport (report_file "/r")
                                 (generate_report sv_env [full_pass b_fp] []))]).
Proof.
  apply (C8_ci_no_cache_write sv_env cached_disk "/r" ci_args (Ok 0)); [reflexivity|].
  vm_compute. reflexivity.
Defined.

(** [update_files] returns exactly when every result's file lies below
    [base] and can be opened. *)
Lemma update_files_ok_iff env base rs cf :
  (exists cf', update_files env base rs cf = Ok cf') <->
  Forall (fun r => (exists rel, relative_to (file_path r) base = Ok rel) /\
                   fs env (file_path r) <> None) rs.
Proof.
  revert cf. induction rs as [|r rs IH]; intros cf; simpl.
  - split; [constructor|eexists; reflexivity].
  - unfold compute_file_hash.
    destruct (relative_to (file_path r) base) as [rel|ex] eqn:Hrel.
    2:{ rewrite Forall_cons. split; [intros [c' H]; discriminate|].
        intros [[[rel Hr] _] _]. congruence. }
    destruct (fs env (file_path r)) as [bytes|] eqn:Hfs.
    2:{ rewrite Forall_cons. split; [intros [c' H]; discriminate|].
        intros [[_ Hf] _]. destruct (Hf Hfs). }
    rewrite IH, Forall_cons. split.
    + intros Hall. split; [split; [eauto | rewrite Hfs; discriminate]|exact Hall].
    + intros [_ Hall]. exact Hall.
Qed.

(** The exception [update_files] raises comes from one of the results. *)
Lemma update_files_raise env base rs cf ex :
  update_files env base rs cf = Raise ex ->
  exists r, In r rs /\
    (ex = ValueError \/ (fs env (file_path r) = None /\ ex = open_exn env (file_path r))).
Proof.
  revert cf. induction rs as [|r rs IH]; intros cf H; simpl in H; [discriminate|].
  destruct (relative_to (file_path r) base) as [rel|ex'] eqn:Hrel.
  2:{ injection H as <-. exists r. split; [left; reflexivity|]. left.
      unfold relative_to in Hrel. destruct (String.eqb _ _); [destruct (parts_prefix _ _)|];
        congruence. }
  unfold compute_file_hash in H. destruct (fs env (file_path r)) as [bytes|] eqn:Hfs.
  - destruct (IH _ H) as (r' & Hr' & Hx). exists r'. split; [right; exact Hr'|exact Hx].
  - injection H as <-. exists r. split; [left; reflexivity|]. right. auto.
Qed.

(** The files of a batch run are printed paths: [str(Path(p))] is [p]. *)
Lemma batch_paths_norm env base m c cat force pa fa tr :
  run (validate_all_examples env base m c cat force None) = (Ok (pa, fa), tr) ->
  Forall (fun r => pl_norm (file_path r) = file_path r) (pa ++ fa).
Proof.
  intros H. unfold run in H. apply validate_all_examples_spec in H as [_ Hx].
  destruct (Hx pa fa eq_refl) as (todo & rs & He & Hrs & -> & ->).
  apply select_files_spec in He as (sub & _ & -> & _).
  apply List.Forall_forall. intros r Hr.
  assert (Hin : In r rs) by (apply in_app_or in Hr as [Hr|Hr]; apply filter_In in Hr; apply Hr).
  apply (in_map file_path) in Hin. rewrite Hrs, map_map in Hin.
  apply in_map_iff in Hin as (kv & Hq & _). simpl in Hq. rewrite <- Hq. apply path_join_norm.
Qed.

(** C9 (code bug): in a non-CI run whose validation returned the results
    [pa ++ fa]: if the file of some result lies outside the examples
    parent or cannot be opened (for instance a missing [--file] argument,
    which [validate_example] records as a PARSE failure), [update_cache]
    raises and no file is written at all, so no entry is rewritten; if
    every result's file can be opened below the examples parent and the
    cache file can be opened for writing, the cache file is written; and
    a cache that is written maps the relative path of every result (when
    the results are about distinct files) to a fresh entry with its
    fingerprint, the timestamp, pass/fail, duration and layers_passed,
    while in a non-forced batch run the entry of every file skipped by
    the staleness check is the one read from the old cache. *)
Theorem C9_cache_update env disk root args res tr raw pa fa tr1 :
  arg_ci args = false ->
  manifest_json disk = Some raw ->
  run (validate_all_examples env (examples_parent root) (drop_schema raw)
         (loaded_cache disk (arg_force args)) (arg_category args) (arg_force args)
         (arg_file args)) = (Ok (pa, fa), tr1) ->
  run (main env disk root args) = (res, tr) ->
  ((exists r, In r (pa ++ fa) /\
      ((exists ex, relative_to (file_path r) (examples_parent root) = Raise ex)
       \/ fs env (file_path r) = None)) ->
   exists ex, res = Raise ex /\ file_writes tr = []) /\
  ((forall r, In r (pa ++ fa) ->
      (exists rel, relative_to (file_path r) (examples_parent root) = Ok rel) /\
      fs env (file_path r) <> None) ->
   write_error env (cache_file root) = None ->
   exists c', In (FileWrite (WriteCache (cache_file root) c')) tr) /\
  (forall p c', In (FileWrite (WriteCache p c')) tr ->
    p = cache_file root /\
    (List.NoDup (map (fun r => pl_norm (file_path r)) (pa ++ fa)) ->
     forall r, In r (pa ++ fa) -> exists rel h,
       relative_to (file_path r) (examples_parent root) = Ok rel /\
       compute_file_hash env (file_path r) = Ok h /\
       cache_files c' !! rel = Some (fresh_entry env h r)) /\
    (forall k, arg_file args = None -> arg_force args = false ->
       should_validate env (path_join (examples_parent root) k) (drop_schema raw)
         (loaded_cache disk false) = Ok false ->
       cache_files c' !! k = cache_files (loaded_cache disk false) !! k)).
Proof.
  intros Hci Hraw E Hrun.
  pose proof (main_noci _ _ _ _ _ _ _ _ _ _ Hci Hraw E Hrun) as Hm.
  pose proof E as E'. unfold run in E'. apply validate_all_examples_spec in E' as [Ht _].
  unfold update_cache in Hm.
  destruct (update_files env (examples_parent root) (pa ++ fa)
              (cache_files (loaded_cache disk (arg_force args)))) as [cf|ex] eqn:Hf.
  - split.
    { intros (r & Hr & Hbad). exfalso.
      assert (Hok : exists cf', update_files env (examples_parent root) (pa ++ fa)
                                  (cache_files (loaded_cache disk (arg_force args))) = Ok cf')
        by (exists cf; exact Hf).
      apply update_files_ok_iff in Hok. rewrite List.Forall_forall in Hok.
      destruct (Hok r Hr) as [[rel Hrel] Hfs]. destruct Hbad as [[ex Hex]|Hn]; congruence. }
    destruct (write_error env (cache_file root)) as [ex|] eqn:Hw.
    + destruct Hm as [-> ->]. split; [intros _ Hw'; discriminate|].
      intros p c' Hin. destruct (tool_ext_no_write _ _ Ht Hin).
    + destruct Hm as (rest & -> & Hrest). split.
      { intros _ _. eexists. apply in_or_app. right. left. reflexivity. }
      intros p c' Hin. apply (noci_cache_write _ _ _ _ _ _ _ Ht Hrest) in Hin as [-> ->].
      split; [reflexivity|].
      change (cache_files (mkCache (files (mkCache (Some cf) (wfl_version (loaded_cache disk (arg_force args)))
                (last_full_validation (loaded_cache disk (arg_force args)))))
                (Some (get_wfl_version env)) (Some (now_iso env)))) with cf.
      split.
      * intros Hnd r Hr. exact (update_files_written env _ _ _ _ Hf Hnd r Hr).
      * intros k Hsf Hforce Hk.
        rewrite (update_files_frame env _ _ _ _ k Hf); [rewrite Hforce; reflexivity|].
        intros r Hr Hrel. apply relative_to_inv in Hrel.
        rewrite Hsf, Hforce in E.
        pose proof (batch_paths_norm _ _ _ _ _ _ _ _ _ E) as Hn.
        rewrite List.Forall_forall in Hn. rewrite (Hn r Hr) in Hrel.
        destruct (batch_results _ _ _ _ _ _ _ _ _ _ E) as (todo & _ & _ & _ & _ & _ & Hskip).
        apply (Hskip k eq_refl eq_refl Hk). rewrite <- Hrel. apply in_map, Hr.
  - destruct Hm as [-> ->]. split.
    { intros _. exists ex. split; [reflexivity | apply tool_ext_file_writes, Ht]. }
    split.
    + intros Hall _. exfalso.
      assert (Hok : Forall (fun r => (exists rel, relative_to (file_path r) (examples_parent root) = Ok rel)
                                     /\ fs env (file_path r) <> None) (pa ++ fa))
        by (apply List.Forall_forall; exact Hall).
      apply (update_files_ok_iff env (examples_parent root) (pa ++ fa)
               (cache_files (loaded_cache disk (arg_force args)))) in Hok.
      destruct Hok as [cf Hcf]. congruence.
    + intros p c' Hin. destruct (tool_ext_no_write _ _ Ht Hin).
Qed.

Lemma C9_cache_update_witness :
  exists ex, fst (run (main missing_env file_disk "/r" file_args)) = Raise ex /\
             file_writes (snd (run (main missing_env file_disk "/r" file_args))) = [].
Proof.
  apply (proj1 (C9_cache_update missing_env file_disk "/r" file_args
                  (fst (run (main missing_env file_disk "/r" file_args)))
                  (snd (run (main missing_env file_disk "/r" file_args)))
                  sv_manifest []
                  [set_error (new_result sv_fp false PARSE)
                     (Some ("Failed to read file: " ++ read_error missing_env sv_fp)%string)] []
                  eq_refl eq_refl ltac:(vm_compute; reflexivity) ltac:(vm_compute; reflexivity))).
  eexists. split; [left; reflexivity|]. right. reflexivity.
Defined.

(* ------------------------------------------------------------------ *)
(** ** Further properties of the tool adapters and the executor *)

(** X1: [validate_with_cli] reports success exactly when it reports no
    error message. *)
Theorem cli_outcome_error_iff env fp cmd :
  fst (cli_outcome env fp cmd) = true <-> snd (cli_outcome env fp cmd) = None.
Proof.
  unfold cli_outcome. destruct (binary_exists env); simpl; [|split; discriminate].
  destruct (run_proc _ _ _) as [rc out err| |msg]; simpl; [|split; discriminate..].
  destruct (rc =? 0); simpl; split; auto; discriminate.
Qed.

Lemma cli_fail_msg env fp cmd o : cli_outcome env fp cmd = (false, o) -> o <> None.
Proof.
  unfold cli_outcome. destruct (binary_exists env); simpl;
    [|intros H; inversion H; subst; discriminate].
  destruct (run_proc _ _ _) as [rc out err| |msg]; [destruct (rc =? 0)|..];
    intros H; inversion H; subst; discriminate.
Qed.

(** X3: a file whose requested layers do not include 5, or whose entry
    sets [skip_execution], is never executed. *)
Theorem validate_example_no_exec env fp e tr x tr' :
  list_mem 5 (entry_layers e) = false \/ default false (skip_execution e) = true ->
  validate_example env fp e tr = (x, tr') ->
  exists ext, tr' = tr ++ ext /\ ~ In ExecCall ext.
Proof.
  intros [Hs|Hs]; revert Hs; unfold_executor; head_split; finish_run; ext_no.
Qed.

Lemma validate_example_no_exec_witness :
  exists ext, snd (validate_example sv_env sv_fp no_exec_entry []) = [] ++ ext /\ ~ In ExecCall ext.
Proof.
  apply (validate_example_no_exec sv_env sv_fp no_exec_entry []
           (fst (validate_example sv_env sv_fp no_exec_entry []))).
  - left. reflexivity.
  - vm_compute. reflexivity.
Defined.

(** X4: the [layers_passed] of a returned result is always the requested
    layers below some layer [L], in layer order. *)
Theorem validate_example_layers_prefix env fp e tr r tr' :
  validate_example env fp e tr = (Ok r, tr') ->
  exists L, layers_passed r = layers_upto e L.
Proof.
  unfold_executor. head_split; finish_run.
  all: unfold layers_upto; first
    [ exists 1; reflexivity
    | exists 2; simpl; use_mem; reflexivity
    | exists 3; simpl; use_mem; reflexivity
    | exists 4; simpl; use_mem; reflexivity
    | exists 5; simpl; use_mem; reflexivity
    | exists 6; simpl; use_mem; reflexivity ].
Qed.

Lemma validate_example_layers_prefix_witness :
  exists L, layers_passed (full_pass sv_fp) = layers_upto default_entry L.
Proof.
  apply (validate_example_layers_prefix sv_env sv_fp default_entry [] (full_pass sv_fp) run_calls).
  vm_compute. reflexivity.
Defined.

(** X5: a returned result is a failure exactly when it carries an error
    message. *)
Theorem validate_example_error_iff env fp e tr r tr' :
  validate_example env fp e tr = (Ok r, tr') ->
  (success r = false <-> error r <> None).
Proof.
  unfold_executor. head_split; finish_run.
  all: repeat match goal with
       | H : cli_outcome _ _ _ = (false, _) |- _ => apply cli_fail_msg in H
       end.
  all: simpl; split; intros; try discriminate; try congruence; try tauto.
Qed.

Lemma validate_example_error_iff_witness :
  success (full_pass sv_fp) = false <-> error (full_pass sv_fp) <> None.
Proof.
  apply (validate_example_error_iff sv_env sv_fp default_entry [] (full_pass sv_fp) run_calls).
  vm_compute. reflexivity.
Defined.

(** X6: a readable file for which every tool call the run makes succeeds
    passes, with all the layers it runs in [layers_passed], whatever its
    type or expected failure layer. *)
Theorem validate_example_all_ok env fp e bytes tr :
  fs env fp = Some bytes -> utf8_ok env bytes = true ->
  list_mem 1 (entry_layers e) = true ->
  fst (cli_outcome env fp "parse") = true ->
  (list_mem 2 (entry_layers e) = true -> fst (cli_outcome env fp "analyze") = true) ->
  (list_mem 5 (entry_layers e) && negb (default false (skip_execution e)) = true ->
   fst (fst (exec_outcome env fp (default 30 (timeout_seconds e))))
   = default 0 (expected_exit_code e)) ->
  exists tr', validate_example env fp e tr
    = (Ok (mkValidationResult fp true EXECUTE None [] (elapsed_ms env fp) (layers_run e)), tr').
Proof.
  intros Hfs Hu H1 Hp Ha Hx. revert Hp Ha Hx. unfold_executor. rewrite Hfs, Hu, H1.
  head_split; finish_run.
  all: try (specialize (Ha eq_refl); discriminate).
  all: try (specialize (Hx eq_refl); simpl in Hx; subst; rewrite Z.eqb_refl in *; discriminate).
  all: eexists; unfold layers_run; simpl; use_mem; rewrite ?H1; simpl; reflexivity.
Qed.

Lemma validate_example_all_ok_witness :
  exists tr', validate_example sv_env sv_fp neg_parse_entry []
    = (Ok (mkValidationResult sv_fp true EXECUTE None [] (elapsed_ms sv_env sv_fp)
             (layers_run neg_parse_entry)), tr').
Proof.
  apply (validate_example_all_ok sv_env sv_fp neg_parse_entry [Byte.x61] []);
    [reflexivity | reflexivity | reflexivity | reflexivity | intros _; reflexivity
    | intros _; vm_compute; reflexivity].
Defined.

(* ------------------------------------------------------------------ *)
(** ** Further properties of the staleness decider and of paths *)

(** X7: [should_validate] raises exactly for a manifest-listed file that
    cannot be opened (with [FileNotFoundError] when it does not exist, and
    otherwise with the error of [open], such as [IsADirectoryError] or
    [PermissionError]), or whose matching cache entry has a non-empty
    timestamp that parses to a datetime without UTC offset ([TypeError]). *)
Theorem should_validate_raises env fp m c ex :
  should_validate env fp m c = Raise ex <->
  in_manifest (rel_path3 fp) m = true /\
  ((fs env fp = None /\ ex = open_exn env fp) \/
   (exists bytes ce d, fs env fp = Some bytes /\ cache_files c !! rel_path3 fp = Some ce /\
      default "" (content_hash ce) = ("sha256:" ++ sha256_hex env bytes)%string /\
      default "" (last_validated ce) <> ""%string /\
      fromisoformat env (replace_Z (default "" (last_validated ce))) = Some d /\
      dt_aware d = false /\ ex = TypeError)).
Proof.
  unfold should_validate, compute_file_hash.
  destruct (in_manifest (rel_path3 fp) m); simpl;
    [|split; [discriminate | intros [H _]; discriminate]].
  destruct (fs env fp) as [bytes|] eqn:Hfs.
  2:{ split; [intros H; injection H as <-; auto|].
      intros [_ [[_ ->]|(b & _ & _ & H & _)]]; [reflexivity | discriminate]. }
  destruct (cache_files c !! rel_path3 fp) as [ce|] eqn:Hc.
  2:{ split; [discriminate|]. intros [_ [[H _]|(b & ce & _ & _ & H & _)]]; discriminate. }
  destruct (String.eqb_spec ("sha256:" ++ sha256_hex env bytes)%string
              (default "" (content_hash ce))) as [Hh|Hh]; simpl.
  2:{ split; [discriminate|]. intros [_ [[H _]|(b & ce' & d & Hb & Hce & Hh' & _)]];
      [discriminate|]. injection Hb as <-. injection Hce as <-. congruence. }
  destruct (String.eqb_spec (default "" (last_validated ce)) "") as [Hl|Hl].
  { split; [discriminate|]. intros [_ [[H _]|(b & ce' & d & Hb & Hce & _ & Hl' & _)]];
      [discriminate|]. injection Hce as <-. contradiction. }
  destruct (fromisoformat env _) as [d|] eqn:Hp.
  2:{ split; [discriminate|]. intros [_ [[H _]|(b & ce' & d & Hb & Hce & _ & _ & Hp' & _)]];
      [discriminate|]. injection Hce as <-. congruence. }
  unfold age_days. destruct (dt_aware d) eqn:Ha.
  - split; [destruct (_ >? 7); discriminate|].
    intros [_ [[H _]|(b & ce' & d' & Hb & Hce & _ & _ & Hp' & Ha' & _)]]; [discriminate|].
    injection Hce as <-. rewrite Hp in Hp'. injection Hp' as <-. congruence.
  - split.
    + intros H. injection H as <-. split; [reflexivity|]. right.
      exists bytes, ce, d. auto 8.
    + intros [_ [[H _]|(b & ce' & d' & Hb & Hce & _ & _ & Hp' & Ha' & ->)]];
        [discriminate | reflexivity].
Qed.


(* ------------------------------------------------------------------ *)
(** ** Further properties of the orchestrator, [update_cache] and [main] *)


(** [eexists] for a witness the body may not mention: an evar of the
    bound type, left for [Unshelve]. *)
Ltac ex_evar :=
  lazymatch goal with |- @ex ?T _ => let e := fresh "e" in evar (e : T); exists e; subst e end.

(** X13: [main] writes at most two files, in this order: the cache file,
    unless [--ci] is given, then the report, when [--report] is given.
    What it writes is always a prefix of that list: an exception (from
    the cache update or from opening a file for writing) stops it after
    fewer writes; with no manifest it writes nothing, and when it returns
    an exit code after reading the manifest it has written the whole list. *)
Theorem main_file_writes env disk root args x tr :
  run (main env disk root args) = (x, tr) ->
  exists c rep ws,
    file_writes tr ++ ws =
      (if arg_ci args then [] else [WriteCache (cache_file root) c])
      ++ (if arg_report args then [WriteReport (report_file root) rep] else []) /\
    (manifest_json disk = None -> file_writes tr = []) /\
    (forall code, x = Ok code -> manifest_json disk <> None -> ws = []).
Proof.
  unfold run, main. destruct (manifest_json disk) as [raw|].
  2:{ intros H. injection H as <- <-. do 3 ex_evar. split; [reflexivity|].
      split; [reflexivity | intros _ _ Hn; contradiction]. }
  unfold bind at 1.
  destruct (validate_all_examples _ _ _ _ _ _ _ []) as [y tr1] eqn:E.
  apply validate_all_examples_spec in E as [Ht _]. apply tool_ext_file_writes in Ht.
  destruct y as [[pa fa]|ex].
  2:{ intros H. injection H as <- <-. rewrite Ht. do 3 ex_evar.
      split; [reflexivity | split; [discriminate | intros ? Hx; discriminate Hx]]. }
  destruct (arg_ci args); unfold bind, ret, emit, lift, raise, write_file; simpl.
  2: destruct (update_cache _ _ _ _) as [c|ex]; simpl;
       [destruct (write_error env (cache_file root)); simpl;
        [|destruct (arg_report args); [destruct (write_error env (report_file root))|]]|].
  1: destruct (arg_report args); [destruct (write_error env (report_file root))|].
  all: simpl; intros H; injection H as <- <-; rewrite ?file_writes_app, Ht; simpl;
    do 3 ex_evar; split; [reflexivity | split; [discriminate | intros ? Hx _; first [discriminate Hx | reflexivity]]].
  Unshelve. all: first [exact empty_cache | exact (generate_report env [] [])].
Qed.

Lemma main_file_writes_witness :
  exists c rep ws,
    file_writes (snd (run (main sv_env two_file_disk "/r" report_args))) ++ ws
    = [WriteCache (cache_file "/r") c] ++ [WriteReport (report_file "/r") rep] /\
    (manifest_json two_file_disk = None ->
     file_writes (snd (run (main sv_env two_file_disk "/r" report_args))) = []) /\
    (forall code, fst (run (main sv_env two_file_disk "/r" report_args)) = Ok code ->
     manifest_json two_file_disk <> None -> ws = []).
Proof.
  apply (main_file_writes sv_env two_file_disk "/r" report_args).
  apply surjective_pairing.
Defined.


(** X12: when [main] returns, its exit code is 1 if the manifest is
    missing (and nothing else happens); otherwise it is 0 when validation
    returned no failed result, and 1 otherwise. *)
Theorem main_exit_code env disk root args code tr :
  run (main env disk root args) = (Ok code, tr) ->
  match manifest_json disk with
  | None => code = 1 /\ tr = []
  | Some raw => exists passed failed tr1,
      run (validate_all_examples env (examples_parent root) (drop_schema raw)
             (loaded_cache disk (arg_force args)) (arg_category args) (arg_force args)
             (arg_file args)) = (Ok (passed, failed), tr1) /\
      ((failed = [] /\ code = 0) \/ (failed <> [] /\ code = 1))
  end.
Proof.
  unfold run, main. destruct (manifest_json disk) as [raw|].
  2:{ intros H. injection H as <- <-. auto. }
  unfold bind at 1.
  destruct (validate_all_examples _ _ _ _ _ _ _ []) as [y tr1] eqn:E.
  destruct y as [[pa fa]|ex]; [|discriminate].
  intros H. exists pa, fa, tr1. split; [reflexivity|].
  revert H. destruct (arg_ci args); unfold bind, ret, emit, lift, raise, write_file; simpl.
  2: destruct (update_cache _ _ _ _) as [c|ex]; simpl;
       [destruct (write_error env (cache_file root)); simpl;
        [|destruct (arg_report args); [destruct (write_error env (report_file root))|]]|].
  1: destruct (arg_report args); [destruct (write_error env (report_file root))|].
  all: simpl; intros H;
    first [ discriminate H
          | injection H as <- _; destruct fa; [left|right]; split; congruence ].
Qed.

Lemma main_exit_code_witness :
  exists passed failed tr1,
    run (validate_all_examples sv_env (examples_parent "/r") (drop_schema two_manifest)
           (loaded_cache two_file_disk false) None false None) = (Ok (passed, failed), tr1) /\
    ((failed = [] /\ 0 = 0) \/ (failed <> [] /\ 0 = 1)).
Proof.
  apply (main_exit_code sv_env two_file_disk "/r" plain_args 0
           (snd (run (main sv_env two_file_disk "/r" plain_args)))).
  vm_compute. reflexivity.
Defined.


Lemma update_files_origin env base rs cf cf' k ce :
  update_files env base rs cf = Ok cf' -> cf' !! k = Some ce ->
  cf !! k = Some ce \/
  exists r h, In r rs /\ relative_to (file_path r) base = Ok k /\
    compute_file_hash env (file_path r) = Ok h /\ ce = fresh_entry env h r.
Proof.
  revert cf. induction rs as [|r rs IH]; intros cf H Hk; simpl in H.
  - injection H as <-. auto.
  - destruct (relative_to (file_path r) base) as [rel|] eqn:Hrel; [|discriminate].
    destruct (compute_file_hash env (file_path r)) as [h|] eqn:Hh; [|discriminate].
    destruct (IH _ H Hk) as [Hc|(r' & h' & Hin & ?)].
    + destruct (decide (rel = k)) as [->|Hne].
      * rewrite lookup_insert_eq in Hc. injection Hc as <-.
        right. exists r, h. simpl. auto.
      * rewrite lookup_insert_ne in Hc by exact Hne. auto.
    + right. exists r', h'. simpl. tauto.
Qed.

(** X14: a non-CI [--force] run drops the previous cache: every entry of
    the cache file it writes is the fresh entry of a result of this run,
    stored under the result's path relative to the examples parent. *)
Theorem force_cache_fresh env disk root args x tr p c' :
  arg_ci args = false -> arg_force args = true ->
  run (main env disk root args) = (x, tr) ->
  In (FileWrite (WriteCache p c')) tr ->
  exists raw pa fa tr1,
    manifest_json disk = Some raw /\
    run (validate_all_examples env (examples_parent root) (drop_schema raw) empty_cache
           (arg_category args) true (arg_file args)) = (Ok (pa, fa), tr1) /\
    forall k ce, cache_files c' !! k = Some ce ->
      exists r h, In r (pa ++ fa) /\
        relative_to (file_path r) (examples_parent root) = Ok k /\
        compute_file_hash env (file_path r) = Ok h /\ ce = fresh_entry env h r.
Proof.
  intros Hci Hforce Hrun Hin.
  assert (Hc : loaded_cache disk (arg_force args) = empty_cache).
  { unfold loaded_cache. rewrite Hforce. destruct (cache_json disk); reflexivity. }
  destruct (manifest_json disk) as [raw|] eqn:Hraw.
  2:{ unfold run, main in Hrun. rewrite Hraw in Hrun. injection Hrun as _ <-. destruct Hin. }
  destruct (run (validate_all_examples env (examples_parent root) (drop_schema raw)
                   (loaded_cache disk (arg_force args)) (arg_category args) (arg_force args)
                   (arg_file args))) as [y tr1] eqn:E.
  pose proof E as E'. unfold run in E'. apply validate_all_examples_spec in E' as [Ht _].
  destruct y as [[pa fa]|ex].
  2:{ unfold run, main in Hrun. rewrite Hraw in Hrun. unfold bind at 1 in Hrun.
      unfold run in E. rewrite E in Hrun. injection Hrun as _ <-.
      destruct (tool_ext_no_write _ _ Ht Hin). }
  pose proof (main_noci env disk root args raw pa fa tr1 x tr Hci Hraw E Hrun) as Hm.
  exists raw, pa, fa, tr1. split; [reflexivity|].
  split; [rewrite Hc, Hforce in E; exact E|].
  rewrite Hc in Hm.
  destruct (update_cache env empty_cache (pa ++ fa) (examples_parent root)) as [c|e] eqn:Hu;
    [|destruct Hm as [_ ->]; destruct (tool_ext_no_write _ _ Ht Hin)].
  destruct (write_error env (cache_file root));
    [destruct Hm as [_ ->]; destruct (tool_ext_no_write _ _ Ht Hin)|].
  destruct Hm as (rest & -> & Hr).
  destruct (noci_cache_write _ _ _ _ _ _ _ Ht Hr Hin) as [_ ->].
  unfold update_cache in Hu.
  destruct (update_files env _ (pa ++ fa) _) as [cf|] eqn:Hf; [|discriminate].
  injection Hu as <-. intros k ce Hk. unfold cache_files in Hk. simpl in Hk.
  destruct (update_files_origin _ _ _ _ _ _ _ Hf Hk) as [Hnil|Hr']; [|exact Hr'].
  unfold cache_files in Hnil. simpl in Hnil. rewrite lookup_empty in Hnil. discriminate.
Qed.

Lemma force_cache_fresh_witness :
  exists raw pa fa tr1,
    manifest_json cached_disk = Some raw /\
    run (validate_all_examples sv_env (examples_parent "/r") (drop_schema raw) empty_cache
           None true None) = (Ok (pa, fa), tr1) /\
    forall k ce, cache_files forced_cache !! k = Some ce ->
      exists r h, In r (pa ++ fa) /\
        relative_to (file_path r) (examples_parent "/r") = Ok k /\
        compute_file_hash sv_env (file_path r) = Ok h /\ ce = fresh_entry sv_env h r.
Proof.
  apply (force_cache_fresh sv_env cached_disk "/r" force_args (Ok 0)
           (snd (run (main sv_env cached_disk "/r" force_args))) (cache_file "/r") forced_cache);
    [reflexivity | reflexivity | vm_compute; reflexivity | vm_compute; intuition].
Defined.


(** X15: a non-CI [--file] run on a manifest-listed file that cannot be
    opened raises the error of opening it ([FileNotFoundError] when it does
    not exist, [IsADirectoryError] for a directory, ...), raised while
    fingerprinting it for the cache, after no tool call and without
    writing any file. *)
Theorem file_arg_missing_crash env disk root args sf raw rel e :
  arg_ci args = false -> arg_file args = Some sf -> manifest_json disk = Some raw ->
  relative_to sf (examples_parent root) = Ok rel ->
  manifest_lookup rel (drop_schema raw) = Some e ->
  fs env sf = None ->
  run (main env disk root args) = (Raise (open_exn env sf), []).
Proof.
  intros Hci Hfile Hraw Hrel Hlook Hfs.
  unfold run, main. rewrite Hraw, Hfile, Hci.
  unfold validate_all_examples, bind at 1 2, lift at 1. rewrite Hrel.
  unfold ret at 1. rewrite Hlook. unfold bind at 1.
  unfold validate_example at 1. rewrite Hfs. unfold ret at 1. simpl.
  unfold bind at 1, lift. unfold update_cache. simpl. rewrite Hrel.
  unfold compute_file_hash. rewrite Hfs. reflexivity.
Qed.

Lemma file_arg_missing_crash_witness :
  run (main missing_env file_disk "/r" file_args) = (Raise FileNotFoundError, []).
Proof.
  apply (file_arg_missing_crash missing_env file_disk "/r" file_args sv_fp sv_manifest sv_key
           default_entry); reflexivity.
Defined.



(** X16: [update_cache] succeeds exactly when every result's file lies
    under the examples parent and can be opened; when it raises, the
    exception is the [ValueError] of [relative_to] or the error of opening
    the file of some result that cannot be opened. *)
Theorem update_cache_ok_iff env cache rs base :
  ((exists c', update_cache env cache rs base = Ok c') <->
   Forall (fun r => (exists rel, relative_to (file_path r) base = Ok rel) /\
                    fs env (file_path r) <> None) rs) /\
  (forall ex, update_cache env cache rs base = Raise ex ->
   exists r, In r rs /\
     (ex = ValueError \/ (fs env (file_path r) = None /\ ex = open_exn env (file_path r)))).
Proof.
  unfold update_cache. split.
  - rewrite <- (update_files_ok_iff env base rs (cache_files cache)).
    destruct (update_files env base rs (cache_files cache)) as [cf|e].
    + split; intros _; eexists; reflexivity.
    + split; intros [y H]; discriminate.
  - intros ex. destruct (update_files env base rs (cache_files cache)) as [cf|e] eqn:Hu;
      [discriminate|]. intros H. injection H as <-.
    exact (update_files_raise _ _ _ _ _ Hu).
Qed.

